(** * Authentication, authorization and resource guards of the booking API

    A shallow embedding of the Express handlers of the repository
    ([middleware/auth.js], [routes/login.js], [routes/users.js],
    [routes/reviews.js], [routes/bookings.js], [routes/properties.js]) and
    of the properties its specification states about them.

    - JavaScript values are an inductive type with the language's
      truthiness and strict equality.
    - A handler is a finite tree of store calls ending in one HTTP
      response: every [await prisma.<model>.<op>(..)] is a node whose
      continuation receives either the resolved value or the thrown error.
    - [jsonwebtoken] and the Prisma client are the two external
      collaborators.  The first is an interface ([Jwt]) with its contract
      stated apart ([JwtContract]); the second is any implementation of
      the four store operations ([store]), with a model of the tables of
      [prisma/schema.prisma] as one instance ([prisma]). *)

From Stdlib Require Import ZArith QArith Ascii String List Bool Lia.
From stdpp Require Import gmap strings list fin_maps countable.

Set Warnings "-register-all".
Set Default Proof Using "Type*".

Local Open Scope string_scope.
Local Open Scope Z_scope.

(** ** JavaScript values *)

(** Numbers are the exact rationals of JSON literals; objects are finite
    maps from property names to values.  [JDate v] is [new Date(v)]. *)
Inductive jsval : Type :=
| JUndefined
| JNull
| JBool (b : bool)
| JNum (q : Q)
| JStr (s : string)
| JArr (l : list jsval)
| JObj (o : gmap string jsval)
| JDate (v : jsval).

Abbreviation obj := (gmap string jsval).

(** [if (v)]: undefined, null, false, 0 and the empty string are falsy. *)
Definition truthy (v : jsval) : bool :=
  match v with
  | JUndefined | JNull => false
  | JBool b => b
  | JNum q => negb (Qnum q =? 0)%Z
  | JStr s => negb (String.eqb s "")
  | JArr _ | JObj _ | JDate _ => true
  end.

(** [!v] *)
Definition falsy (v : jsval) : bool := negb (truthy v).

(** [a === b].  Arrays, objects and dates compare by reference; the
    operands compared in the handlers never share one (one side comes
    from the request, the other from the token or the store). *)
Definition strict_eq (a b : jsval) : bool :=
  match a, b with
  | JUndefined, JUndefined => true
  | JNull, JNull => true
  | JBool x, JBool y => Bool.eqb x y
  | JNum x, JNum y => Qeq_bool x y
  | JStr x, JStr y => String.eqb x y
  | _, _ => false
  end.

(** [a !== b] *)
Definition strict_neq (a b : jsval) : bool := negb (strict_eq a b).

(** [o.k]: reading a property that is not there gives [undefined]. *)
Definition get (k : string) (o : obj) : jsval := default JUndefined (o !! k).

(** [String.prototype.split] on a one-character separator. *)
Fixpoint split (sep : ascii) (s : string) : list string :=
  match s with
  | EmptyString => [EmptyString]
  | String c r =>
      if Ascii.eqb c sep then EmptyString :: split sep r
      else match split sep r with
           | h :: t => String c h :: t
           | [] => [String c EmptyString]
           end
  end.

(** A template literal interpolates a string as it is; the columns the
    handlers interpolate ([username], [id], [title]) are [String] columns
    of the schema.  Other primitives print as ECMAScript's ToString does;
    numbers and compound values are left to [show]. *)
Definition to_template (show : jsval -> string) (v : jsval) : string :=
  match v with
  | JStr s => s
  | JUndefined => "undefined"
  | JNull => "null"
  | JBool true => "true"
  | JBool false => "false"
  | _ => show v
  end.

(** ** HTTP *)

Record request := {
  authorization : option string;   (* req.headers["authorization"] *)
  params_id : string;              (* req.params.id *)
  body : obj;                      (* req.body *)
  user : obj                       (* req.user, set by verifyToken *)
}.

Record response := { status : Z; json : obj }.

Definition message (m : string) : obj := {[ "message" := JStr m ]}.

Definition reply (code : Z) (m : string) : response :=
  {| status := code; json := message m |}.

Definition set_user (req : request) (decoded : obj) : request :=
  {| authorization := authorization req; params_id := params_id req;
     body := body req; user := decoded |}.

(** ** Store calls *)

Inductive table := User | Host | Property | Booking | Review.

(** What an [await] gives back: the resolved value, or the error thrown. *)
Inductive settled (A : Type) : Type :=
| Resolved (a : A)
| Rejected (err : obj).
Arguments Resolved {A} a.
Arguments Rejected {A} err.

(** A handler after the middleware: store calls in sequence, then the
    response. *)
Inductive prog : Type :=
| Ret (r : response)
| FindUnique (t : table) (field : string) (v : jsval)
    (k : settled (option obj) -> prog)
| Create (t : table) (data : obj) (k : settled obj -> prog)
| Update (t : table) (id : jsval) (data : obj) (k : settled obj -> prog)
| Delete (t : table) (id : jsval) (k : settled obj -> prog).

(** The store call a node makes. *)
Inductive call :=
| CFindUnique (t : table) (field : string) (v : jsval)
| CCreate (t : table) (data : obj)
| CUpdate (t : table) (id : jsval) (data : obj)
| CDelete (t : table) (id : jsval).

Definition is_mutation (c : call) : bool :=
  match c with
  | CFindUnique _ _ _ => false
  | _ => true
  end.

(** The [catch] blocks: a 500, after the P2025 test where there is one. *)
Definition server_error : response := reply 500 "Server error".

Definition is_P2025 (err : obj) : bool :=
  strict_eq (get "code" err) (JStr "P2025").

(** ** The token library *)

(** [jsonwebtoken], as the two calls use it.  [jwt_sign payload secret
    expiresIn now] is [jwt.sign(payload, secret, { expiresIn })] with the
    lifetime in seconds; [jwt_verify token secret now] is
    [jwt.verify(token, secret)].  [now] is [Date.now()] in milliseconds,
    the secret is [process.env.JWT_SECRET], and [None] is a throw. *)
Class Jwt := {
  jwt_sign : obj -> option string -> Z -> Z -> option string;
  jwt_verify : string -> option string -> Z -> option obj
}.

(** The registered claims the library adds: [iat] is the clock in whole
    seconds, [exp] is [iat] plus the lifetime. *)
Definition seconds (now : Z) : Z := now / 1000.

Definition with_registered_claims (payload : obj) (iat lifetime : Z) : obj :=
  <[ "exp" := JNum (inject_Z (iat + lifetime)) ]>
    (<[ "iat" := JNum (inject_Z iat) ]> payload).

(** ["7h"], in seconds. *)
Definition expiresIn : Z := 7 * 60 * 60.

Fixpoint has_space (s : string) : bool :=
  match s with
  | EmptyString => false
  | String c r => Ascii.eqb c " " || has_space r
  end.

Definition no_space (s : string) : Prop := has_space s = false.

(** The part of the library's contract the application relies on, for the
    payloads the login route signs (two strings): with a secret in place a
    token is issued; it is a non-empty string without spaces; verified
    with the same secret it decodes to the payload and the registered
    claims as long as the clock, in whole seconds, is before [exp], and
    throws from then on. *)
Class JwtContract (J : Jwt) : Prop := {
  jwt_sign_issues : forall uid uname secret lifetime now,
    secret <> "" ->
    exists token,
      jwt_sign {[ "userId" := JStr uid; "username" := JStr uname ]}
               (Some secret) lifetime now = Some token /\
      token <> "" /\ no_space token /\
      forall later,
        jwt_verify token (Some secret) later =
          if seconds later <? seconds now + lifetime
          then Some (with_registered_claims
                       {[ "userId" := JStr uid; "username" := JStr uname ]}
                       (seconds now) lifetime)
          else None
}.

Section Handlers.

Context {J : Jwt}.

(** The process environment and the clock of one request. *)
Variable JWT_SECRET : option string.

(** ToString of numbers and compound values, for template literals. *)
Variable show : jsval -> string.

(** ** middleware/auth.js *)

Definition missing_credential : response :=
  reply 401 "No token provided, authorization denied".

Definition invalid_token : response :=
  reply 401 "Invalid or expired token".

(** [req.headers["authorization"]?.split(" ")[1]] *)
Definition bearer_token (req : request) : option string :=
  match authorization req with
  | None => None
  | Some h => nth_error (split " "%char h) 1
  end.

(** [!token]: no second segment, or an empty one. *)
Definition token_present (t : option string) : option string :=
  match t with
  | Some s => if String.eqb s "" then None else Some s
  | None => None
  end.

(** The middleware either answers itself or calls [next] with [req.user]
    set. *)
Inductive verdict :=
| Answered (r : response)
| Next (req : request).

Definition verifyToken (now : Z) (req : request) : verdict :=
  match token_present (bearer_token req) with
  | None => Answered missing_credential
  | Some token =>
      match jwt_verify token JWT_SECRET now with
      | Some decoded => Next (set_user req decoded)
      | None => Answered invalid_token
      end
  end.

(** [router.<verb>(path, verifyToken, handler)] *)
Definition protected (handler : request -> prog) (now : Z) (req : request)
  : prog :=
  match verifyToken now req with
  | Answered r => Ret r
  | Next req' => handler req'
  end.

(** ** routes/login.js *)

Definition invalid_credentials : response := reply 401 "Invalid credentials".

Definition login_post (now : Z) (req : request) : prog :=
  let username := get "username" (body req) in
  let password := get "password" (body req) in
  if falsy username || falsy password then
    Ret (reply 400 "Username and password are required")
  else
    FindUnique User "username" username (fun r =>
      match r with
      | Rejected _ => Ret server_error
      | Resolved None => Ret invalid_credentials
      | Resolved (Some user) =>
          if strict_neq password (get "password" user) then
            Ret invalid_credentials
          else
            match jwt_sign {[ "userId" := get "id" user;
                              "username" := get "username" user ]}
                           JWT_SECRET expiresIn now with
            | Some token =>
                Ret {| status := 200; json := {[ "token" := JStr token ]} |}
            | None => Ret server_error
            end
      end).

(** ** routes/users.js *)

Definition users_put (req : request) : prog :=
  let id := params_id req in
  let username := get "username" (body req) in
  let email := get "email" (body req) in
  let password := get "password" (body req) in
  if falsy username && falsy email && falsy password then
    Ret (reply 400
           "At least one field is required (username, email, or password)")
  else if strict_neq (get "id" (user req)) (JStr id) then
    Ret (reply 403 "You can only update your own account")
  else
    FindUnique User "id" (JStr id) (fun r =>
      match r with
      | Rejected _ => Ret server_error
      | Resolved None => Ret (reply 404 "User not found")
      | Resolved (Some _) =>
          let updatedData : obj := ∅ in
          let updatedData :=
            if truthy username then <[ "username" := username ]> updatedData
            else updatedData in
          let updatedData :=
            if truthy email then <[ "email" := email ]> updatedData
            else updatedData in
          let updatedData :=
            if truthy password then <[ "password" := password ]> updatedData
            else updatedData in
          Update User (JStr id) updatedData (fun r =>
            match r with
            | Rejected _ => Ret server_error
            | Resolved updatedUser =>
                Ret {| status := 200; json := delete "password" updatedUser |}
            end)
      end).

Definition users_delete (req : request) : prog :=
  let id := params_id req in
  if strict_neq (get "id" (user req)) (JStr id) then
    Ret (reply 403 "You can only delete your own account")
  else
    Delete User (JStr id) (fun r =>
      match r with
      | Resolved deletedUser =>
          Ret (reply 200
                 ("User " +:+ to_template show (get "username" deletedUser)
                  +:+ " deleted successfully"))
      | Rejected err =>
          if is_P2025 err then Ret (reply 404 "User not found")
          else Ret server_error
      end).

(** ** routes/reviews.js *)

Definition reviews_post (req : request) : prog :=
  let rating := get "rating" (body req) in
  let comment := get "comment" (body req) in
  let userId := get "userId" (body req) in
  let propertyId := get "propertyId" (body req) in
  if falsy rating || falsy comment || falsy userId || falsy propertyId then
    Ret (reply 400 "Rating, comment, user ID, and property ID are required")
  else
    FindUnique User "id" userId (fun r =>
      match r with
      | Rejected _ => Ret server_error
      | Resolved None => Ret (reply 404 "User not found")
      | Resolved (Some _) =>
          FindUnique Property "id" propertyId (fun r =>
            match r with
            | Rejected _ => Ret server_error
            | Resolved None => Ret (reply 404 "Property not found")
            | Resolved (Some _) =>
                Create Review
                  {[ "rating" := rating; "comment" := comment;
                     "userId" := userId; "propertyId" := propertyId ]}
                  (fun r =>
                     match r with
                     | Rejected _ => Ret server_error
                     | Resolved newReview =>
                         Ret {| status := 201; json := newReview |}
                     end)
            end)
      end).

Definition reviews_put (req : request) : prog :=
  let id := params_id req in
  let rating := get "rating" (body req) in
  let comment := get "comment" (body req) in
  let userId := get "userId" (body req) in
  let propertyId := get "propertyId" (body req) in
  if falsy rating && falsy comment && falsy userId && falsy propertyId then
    Ret (reply 400
      "At least one field (rating, comment, userId, propertyId) is required")
  else
    FindUnique Review "id" (JStr id) (fun r =>
      match r with
      | Rejected _ => Ret server_error
      | Resolved None => Ret (reply 404 "Review not found")
      | Resolved (Some _) =>
          let updatedData : obj := ∅ in
          let updatedData :=
            if truthy rating then <[ "rating" := rating ]> updatedData
            else updatedData in
          let updatedData :=
            if truthy comment then <[ "comment" := comment ]> updatedData
            else updatedData in
          let updatedData :=
            if truthy userId then <[ "userId" := userId ]> updatedData
            else updatedData in
          let updatedData :=
            if truthy propertyId
            then <[ "propertyId" := propertyId ]> updatedData
            else updatedData in
          Update Review (JStr id) updatedData (fun r =>
            match r with
            | Rejected _ => Ret server_error
            | Resolved updatedReview =>
                Ret {| status := 200; json := updatedReview |}
            end)
      end).

Definition reviews_delete (req : request) : prog :=
  let id := params_id req in
  Delete Review (JStr id) (fun r =>
    match r with
    | Resolved deletedReview =>
        Ret (reply 200
               ("Review with ID " +:+ to_template show (get "id" deletedReview)
                +:+ " deleted successfully"))
    | Rejected err =>
        if is_P2025 err then Ret (reply 404 "Review not found")
        else Ret server_error
    end).

(** ** routes/bookings.js *)

Definition bookings_post (req : request) : prog :=
  let startDate := get "startDate" (body req) in
  let endDate := get "endDate" (body req) in
  let userId := get "userId" (body req) in
  let propertyId := get "propertyId" (body req) in
  if falsy startDate || falsy endDate || falsy userId || falsy propertyId then
    Ret (reply 400
           "Start date, end date, user ID, and property ID are required")
  else
    FindUnique User "id" userId (fun r =>
      match r with
      | Rejected _ => Ret server_error
      | Resolved None => Ret (reply 404 "User not found")
      | Resolved (Some _) =>
          FindUnique Property "id" propertyId (fun r =>
            match r with
            | Rejected _ => Ret server_error
            | Resolved None => Ret (reply 404 "Property not found")
            | Resolved (Some _) =>
                Create Booking
                  {[ "startDate" := JDate startDate;
                     "endDate" := JDate endDate;
                     "userId" := userId; "propertyId" := propertyId ]}
                  (fun r =>
                     match r with
                     | Rejected _ => Ret server_error
                     | Resolved newBooking =>
                         Ret {| status := 201; json := newBooking |}
                     end)
            end)
      end).

Definition bookings_put (req : request) : prog :=
  let id := params_id req in
  let startDate := get "startDate" (body req) in
  let endDate := get "endDate" (body req) in
  let userId := get "userId" (body req) in
  let propertyId := get "propertyId" (body req) in
  if falsy startDate && falsy endDate && falsy userId && falsy propertyId then
    Ret (reply 400
      "At least one field (startDate, endDate, userId, propertyId) is required")
  else
    FindUnique Booking "id" (JStr id) (fun r =>
      match r with
      | Rejected _ => Ret server_error
      | Resolved None => Ret (reply 404 "Booking not found")
      | Resolved (Some _) =>
          let updatedData : obj := ∅ in
          let updatedData :=
            if truthy startDate
            then <[ "startDate" := JDate startDate ]> updatedData
            else updatedData in
          let updatedData :=
            if truthy endDate
            then <[ "endDate" := JDate endDate ]> updatedData
            else updatedData in
          let updatedData :=
            if truthy userId then <[ "userId" := userId ]> updatedData
            else updatedData in
          let updatedData :=
            if truthy propertyId
            then <[ "propertyId" := propertyId ]> updatedData
            else updatedData in
          Update Booking (JStr id) updatedData (fun r =>
            match r with
            | Rejected _ => Ret server_error
            | Resolved updatedBooking =>
                Ret {| status := 200; json := updatedBooking |}
            end)
      end).

Definition bookings_delete (req : request) : prog :=
  let id := params_id req in
  Delete Booking (JStr id) (fun r =>
    match r with
    | Resolved deletedBooking =>
        Ret (reply 200
               ("Booking with ID "
                +:+ to_template show (get "id" deletedBooking)
                +:+ " deleted successfully"))
    | Rejected err =>
        if is_P2025 err then Ret (reply 404 "Booking not found")
        else Ret server_error
    end).

(** ** routes/properties.js *)

(** The nine fields of a property payload, in the order the handlers
    destructure and test them. *)
Definition property_fields : list string :=
  [ "title"; "description"; "location"; "pricePerNight"; "bedroomCount";
    "bathroomCount"; "maxGuestCount"; "rating"; "hostId" ].

Definition properties_post (req : request) : prog :=
  let title := get "title" (body req) in
  let description := get "description" (body req) in
  let location := get "location" (body req) in
  let pricePerNight := get "pricePerNight" (body req) in
  let bedroomCount := get "bedroomCount" (body req) in
  let bathroomCount := get "bathroomCount" (body req) in
  let maxGuestCount := get "maxGuestCount" (body req) in
  let rating := get "rating" (body req) in
  let hostId := get "hostId" (body req) in
  if falsy title || falsy description || falsy location
     || falsy pricePerNight || falsy bedroomCount || falsy bathroomCount
     || falsy maxGuestCount || falsy rating || falsy hostId then
    Ret (reply 400 "All fields are required")
  else
    FindUnique Host "id" hostId (fun r =>
      match r with
      | Rejected _ => Ret server_error
      | Resolved None => Ret (reply 404 "Host not found")
      | Resolved (Some _) =>
          Create Property
            {[ "title" := title; "description" := description;
               "location" := location; "pricePerNight" := pricePerNight;
               "bedroomCount" := bedroomCount;
               "bathroomCount" := bathroomCount;
               "maxGuestCount" := maxGuestCount; "rating" := rating;
               "hostId" := hostId ]}
            (fun r =>
               match r with
               | Rejected _ => Ret server_error
               | Resolved newProperty =>
                   Ret {| status := 201; json := newProperty |}
               end)
      end).

Definition properties_put (req : request) : prog :=
  let id := params_id req in
  let title := get "title" (body req) in
  let description := get "description" (body req) in
  let location := get "location" (body req) in
  let pricePerNight := get "pricePerNight" (body req) in
  let bedroomCount := get "bedroomCount" (body req) in
  let bathroomCount := get "bathroomCount" (body req) in
  let maxGuestCount := get "maxGuestCount" (body req) in
  let rating := get "rating" (body req) in
  let hostId := get "hostId" (body req) in
  if falsy title && falsy description && falsy location
     && falsy pricePerNight && falsy bedroomCount && falsy bathroomCount
     && falsy maxGuestCount && falsy rating && falsy hostId then
    Ret (reply 400
      "At least one field (title, description, location, pricePerNight, bedroomCount, bathroomCount, maxGuestCount, rating, or hostId) is required")
  else
    FindUnique Property "id" (JStr id) (fun r =>
      match r with
      | Rejected _ => Ret server_error
      | Resolved None => Ret (reply 404 "Property not found")
      | Resolved (Some _) =>
          let updatedData : obj := ∅ in
          let updatedData :=
            if truthy title then <[ "title" := title ]> updatedData
            else updatedData in
          let updatedData :=
            if truthy description
            then <[ "description" := description ]> updatedData
            else updatedData in
          let updatedData :=
            if truthy location then <[ "location" := location ]> updatedData
            else updatedData in
          let updatedData :=
            if truthy pricePerNight
            then <[ "pricePerNight" := pricePerNight ]> updatedData
            else updatedData in
          let updatedData :=
            if truthy bedroomCount
            then <[ "bedroomCount" := bedroomCount ]> updatedData
            else updatedData in
          let updatedData :=
            if truthy bathroomCount
            then <[ "bathroomCount" := bathroomCount ]> updatedData
            else updatedData in
          let updatedData :=
            if truthy maxGuestCount
            then <[ "maxGuestCount" := maxGuestCount ]> updatedData
            else updatedData in
          let updatedData :=
            if truthy rating then <[ "rating" := rating ]> updatedData
            else updatedData in
          let updatedData :=
            if truthy hostId then <[ "hostId" := hostId ]> updatedData
            else updatedData in
          Update Property (JStr id) updatedData (fun r =>
            match r with
            | Rejected _ => Ret server_error
            | Resolved updatedProperty =>
                Ret {| status := 200; json := updatedProperty |}
            end)
      end).

Definition properties_delete (req : request) : prog :=
  let id := params_id req in
  Delete Property (JStr id) (fun r =>
    match r with
    | Resolved deletedProperty =>
        Ret (reply 200
               ("Property "
                +:+ to_template show (get "title" deletedProperty)
                +:+ " deleted successfully"))
    | Rejected err =>
        if is_P2025 err then Ret (reply 404 "Property not found")
        else Ret server_error
    end).

End Handlers.

(** ** Running a handler against a store *)

(** Any implementation of the four operations, over any state.  Each
    operation answers and leaves a state behind; nothing is assumed of
    the answers, so a row may vanish between two calls of one request. *)
Record store (S : Type) := {
  st_findUnique : table -> string -> jsval -> S -> settled (option obj) * S;
  st_create : table -> obj -> S -> settled obj * S;
  st_update : table -> jsval -> obj -> S -> settled obj * S;
  st_delete : table -> jsval -> S -> settled obj * S
}.
Arguments st_findUnique {S}.
Arguments st_create {S}.
Arguments st_update {S}.
Arguments st_delete {S}.

(** The response, the state the store is left in, and the calls made, in
    order. *)
Record outcome (S : Type) := {
  sent : response;
  final : S;
  calls : list call
}.
Arguments sent {S}.
Arguments final {S}.
Arguments calls {S}.

Definition after {S} (c : call) (o : outcome S) : outcome S :=
  {| sent := sent o; final := final o; calls := c :: calls o |}.

Fixpoint run {S} (st : store S) (p : prog) (s : S) : outcome S :=
  match p with
  | Ret r => {| sent := r; final := s; calls := [] |}
  | FindUnique t f v k =>
      let '(a, s') := st_findUnique st t f v s in
      after (CFindUnique t f v) (run st (k a) s')
  | Create t d k =>
      let '(a, s') := st_create st t d s in
      after (CCreate t d) (run st (k a) s')
  | Update t i d k =>
      let '(a, s') := st_update st t i d s in
      after (CUpdate t i d) (run st (k a) s')
  | Delete t i k =>
      let '(a, s') := st_delete st t i s in
      after (CDelete t i) (run st (k a) s')
  end.

(** ** A model of the Prisma client over the tables of the schema *)

Record db := {
  users : gmap string obj;
  hosts : gmap string obj;
  properties : gmap string obj;
  bookings : gmap string obj;
  reviews : gmap string obj
}.

Definition rows (t : table) (d : db) : gmap string obj :=
  match t with
  | User => users d
  | Host => hosts d
  | Property => properties d
  | Booking => bookings d
  | Review => reviews d
  end.

Definition set_rows (t : table) (m : gmap string obj) (d : db) : db :=
  match t with
  | User => {| users := m; hosts := hosts d; properties := properties d;
               bookings := bookings d; reviews := reviews d |}
  | Host => {| users := users d; hosts := m; properties := properties d;
               bookings := bookings d; reviews := reviews d |}
  | Property => {| users := users d; hosts := hosts d; properties := m;
                   bookings := bookings d; reviews := reviews d |}
  | Booking => {| users := users d; hosts := hosts d;
                  properties := properties d; bookings := m;
                  reviews := reviews d |}
  | Review => {| users := users d; hosts := hosts d;
                 properties := properties d; bookings := bookings d;
                 reviews := m |}
  end.

(** The errors of the client: a known request error carries a [code]; a
    validation error (an argument of the wrong type) carries none. *)
Definition known_error (code : string) : obj :=
  {[ "name" := JStr "PrismaClientKnownRequestError"; "code" := JStr code ]}.

Definition validation_error : obj :=
  {[ "name" := JStr "PrismaClientValidationError" ]}.

Section Prisma.

(** What the database engine itself refuses, left open: unique and
    foreign-key constraints, column types.  [None] lets the call through. *)
Variable constraint : db -> call -> option obj.

(** [@default(uuid())] *)
Variable uuid : db -> table -> string.

(** The ids and the unique columns of the schema are [String]s: a [where]
    on another kind of value is a validation error.  A row is looked up
    under its id, or searched by the value of another unique column. *)
Definition prisma_findUnique (t : table) (field : string) (v : jsval) (d : db)
  : settled (option obj) * db :=
  match v with
  | JStr s =>
      if String.eqb field "id" then (Resolved (rows t d !! s), d)
      else
        (Resolved
           (snd <$> List.find (fun kv => strict_eq (get field (snd kv)) v)
                              (map_to_list (rows t d))), d)
  | _ => (Rejected validation_error, d)
  end.

(** [create] stores the data under the id it carries or under a fresh
    one. *)
Definition prisma_create (t : table) (data : obj) (d : db)
  : settled obj * db :=
  match constraint d (CCreate t data) with
  | Some err => (Rejected err, d)
  | None =>
      let id := match data !! "id" with
                | Some (JStr i) => i
                | _ => uuid d t
                end in
      match rows t d !! id with
      | Some _ => (Rejected (known_error "P2002"), d)
      | None =>
          let row := <[ "id" := JStr id ]> data in
          (Resolved row, set_rows t (<[ id := row ]> (rows t d)) d)
      end
  end.

(** [update] of a row that is not there is the error P2025; otherwise the
    data given replace the columns they name and the others stay. *)
Definition prisma_update (t : table) (id : jsval) (data : obj) (d : db)
  : settled obj * db :=
  match id with
  | JStr s =>
      match rows t d !! s with
      | None => (Rejected (known_error "P2025"), d)
      | Some row =>
          match constraint d (CUpdate t id data) with
          | Some err => (Rejected err, d)
          | None =>
              let row' := data ∪ row in
              (Resolved row', set_rows t (<[ s := row' ]> (rows t d)) d)
          end
      end
  | _ => (Rejected validation_error, d)
  end.

(** [delete] of a row that is not there is the error P2025; otherwise the
    row is removed and returned. *)
Definition prisma_delete (t : table) (id : jsval) (d : db)
  : settled obj * db :=
  match id with
  | JStr s =>
      match rows t d !! s with
      | None => (Rejected (known_error "P2025"), d)
      | Some row =>
          match constraint d (CDelete t id) with
          | Some err => (Rejected err, d)
          | None => (Resolved row, set_rows t (delete s (rows t d)) d)
          end
      end
  | _ => (Rejected validation_error, d)
  end.

Definition prisma : store db :=
  {| st_findUnique := prisma_findUnique;
     st_create := prisma_create;
     st_update := prisma_update;
     st_delete := prisma_delete |}.

End Prisma.

(** ** A token library with a transparent encoding *)

(** It meets [JwtContract] and lets the handlers run: a token is the
    letter J followed by the binary digits of the code of (secret,
    userId, username, iat, lifetime). *)
Fixpoint pos_to_bits (p : positive) : string :=
  match p with
  | xH => EmptyString
  | xO q => String "0" (pos_to_bits q)
  | xI q => String "1" (pos_to_bits q)
  end.

Fixpoint bits_to_pos (s : string) : option positive :=
  match s with
  | EmptyString => Some xH
  | String c r =>
      if Ascii.eqb c "0" then xO <$> bits_to_pos r
      else if Ascii.eqb c "1" then xI <$> bits_to_pos r
      else None
  end.

Definition plain_sign (payload : obj) (secret : option string)
    (lifetime now : Z) : option string :=
  match secret, payload !! "userId", payload !! "username" with
  | Some s, Some (JStr uid), Some (JStr uname) =>
      if String.eqb s "" then None
      else Some (String "J"
                   (pos_to_bits (encode (s, uid, uname, seconds now, lifetime))))
  | _, _, _ => None
  end.

Definition plain_verify (token : string) (secret : option string) (now : Z)
  : option obj :=
  match token, secret with
  | String c bits, Some s =>
      if Ascii.eqb c "J" then
        match bits_to_pos bits ≫= decode with
        | Some (s', uid, uname, iat, lifetime) =>
            if String.eqb s s' && (seconds now <? iat + lifetime) then
              Some (with_registered_claims
                      {[ "userId" := JStr uid; "username" := JStr uname ]}
                      iat lifetime)
            else None
        | None => None
        end
      else None
  | _, _ => None
  end.

Definition plain_jwt : Jwt :=
  {| jwt_sign := plain_sign; jwt_verify := plain_verify |}.

(** ** The handlers by resource *)

(** The claims a token issued by the login route decodes to. *)
Definition login_claims (uid uname : string) (issuedAt : Z) : obj :=
  with_registered_claims
    {[ "userId" := JStr uid; "username" := JStr uname ]} issuedAt expiresIn.

(** The four resources whose update and delete routes are above. *)
Inductive resource := Users | Reviews | Bookings | Properties.

Definition table_of (r : resource) : table :=
  match r with
  | Users => User
  | Reviews => Review
  | Bookings => Booking
  | Properties => Property
  end.

Definition put_of (r : resource) : request -> prog :=
  match r with
  | Users => users_put
  | Reviews => reviews_put
  | Bookings => bookings_put
  | Properties => properties_put
  end.

Definition delete_of (show : jsval -> string) (r : resource)
  : request -> prog :=
  match r with
  | Users => users_delete show
  | Reviews => reviews_delete show
  | Bookings => bookings_delete show
  | Properties => properties_delete show
  end.

(** The four fields of a review payload and of a booking payload. *)
Definition review_fields : list string :=
  [ "rating"; "comment"; "userId"; "propertyId" ].

Definition booking_fields : list string :=
  [ "startDate"; "endDate"; "userId"; "propertyId" ].

(** Every field of the list is there and truthy: what a create route
    requires of its payload. *)
Definition has_all_fields (fields : list string) (b : obj) : bool :=
  forallb (fun k => truthy (get k b)) fields.

(** The two lookups of a review or booking creation. *)
Definition user_lookup (b : obj) : call :=
  CFindUnique User "id" (get "userId" b).

Definition property_lookup (b : obj) : call :=
  CFindUnique Property "id" (get "propertyId" b).

Definition host_lookup (b : obj) : call :=
  CFindUnique Host "id" (get "hostId" b).

(** The fields an update takes from the payload, in the order the handler
    assigns them. *)
Definition update_fields (r : resource) : list string :=
  match r with
  | Users => [ "username"; "email"; "password" ]
  | Reviews => review_fields
  | Bookings => booking_fields
  | Properties => property_fields
  end.

(** The value assigned for a field: the payload's, or [new Date] of it for
    the two dates of a booking. *)
Definition assigned (r : resource) (k : string) (v : jsval) : jsval :=
  match r with
  | Bookings =>
      if String.eqb k "startDate" || String.eqb k "endDate" then JDate v
      else v
  | _ => v
  end.

(** [if (v) updatedData.k = ..], field after field from the empty object. *)
Definition update_data (r : resource) (b : obj) : obj :=
  foldl (fun (m : obj) k =>
           if truthy (get k b) then <[ k := assigned r k (get k b) ]> m
           else m)
        ∅ (update_fields r).

(** One of the fields is there and truthy. *)
Definition has_update_field (r : resource) (b : obj) : bool :=
  existsb (fun k => truthy (get k b)) (update_fields r).

(** None of the three fields a user update takes is there and truthy. *)
Definition no_user_field (b : obj) : bool :=
  falsy (get "username" b) && falsy (get "email" b) && falsy (get "password" b).

(** The ownership check of the user routes, which the other resources do
    not have. *)
Definition owner_check (r : resource) (req : request) : bool :=
  match r with
  | Users => strict_eq (get "id" (user req)) (JStr (params_id req))
  | _ => true
  end.

Definition validation_message (r : resource) : string :=
  match r with
  | Users => "At least one field is required (username, email, or password)"
  | Reviews =>
      "At least one field (rating, comment, userId, propertyId) is required"
  | Bookings =>
      "At least one field (startDate, endDate, userId, propertyId) is required"
  | Properties =>
      "At least one field (title, description, location, pricePerNight, bedroomCount, bathroomCount, maxGuestCount, rating, or hostId) is required"
  end.

Definition not_found (r : resource) : string :=
  match r with
  | Users => "User not found"
  | Reviews => "Review not found"
  | Bookings => "Booking not found"
  | Properties => "Property not found"
  end.

(** The body of a 200 after an update: the row, without its password for
    a user. *)
Definition shown (r : resource) (row : obj) : obj :=
  match r with
  | Users => delete "password" row
  | _ => row
  end.

(** An update route past its checks: the lookup, then the update. *)
Definition lookup_then_update (r : resource) (req : request) : prog :=
  FindUnique (table_of r) "id" (JStr (params_id req)) (fun a =>
    match a with
    | Rejected _ => Ret server_error
    | Resolved None => Ret (reply 404 (not_found r))
    | Resolved (Some _) =>
        Update (table_of r) (JStr (params_id req)) (update_data r (body req))
          (fun a =>
             match a with
             | Rejected _ => Ret server_error
             | Resolved row => Ret {| status := 200; json := shown r row |}
             end)
    end).

(** The message of a 200 after a delete. *)
Definition deleted_message (show : jsval -> string) (r : resource) (row : obj)
  : string :=
  match r with
  | Users =>
      "User " +:+ to_template show (get "username" row)
      +:+ " deleted successfully"
  | Reviews =>
      "Review with ID " +:+ to_template show (get "id" row)
      +:+ " deleted successfully"
  | Bookings =>
      "Booking with ID " +:+ to_template show (get "id" row)
      +:+ " deleted successfully"
  | Properties =>
      "Property " +:+ to_template show (get "title" row)
      +:+ " deleted successfully"
  end.

(** A delete route past its check: the delete, and the P2025 test on what
    it throws. *)
Definition delete_then_report (show : jsval -> string) (r : resource)
    (req : request) : prog :=
  Delete (table_of r) (JStr (params_id req)) (fun a =>
    match a with
    | Resolved row => Ret (reply 200 (deleted_message show r row))
    | Rejected err =>
        if is_P2025 err then Ret (reply 404 (not_found r))
        else Ret server_error
    end).

(** ** A store in which the row looked up is gone by the next call *)

(** Requests are served concurrently and a handler's lookup and mutation
    are two calls: here another request deletes the row right after it was
    looked up by id. *)
Definition racing (constraint : db -> call -> option obj)
    (uuid : db -> table -> string) : store db :=
  {| st_findUnique := fun t field v d =>
       (fst (prisma_findUnique t field v d),
        match v with
        | JStr s => set_rows t (delete s (rows t d)) d
        | _ => d
        end);
     st_create := prisma_create constraint uuid;
     st_update := prisma_update constraint;
     st_delete := prisma_delete constraint |}.

(** ** Sample data *)

Definition no_constraint : db -> call -> option obj := fun _ _ => None.

Definition sample_uuid : db -> table -> string :=
  fun _ _ => "6f1c2d3e-0000-4000-8000-000000000001".

Definition sample_show : jsval -> string := fun _ => "[object Object]".

Definition jdoe : obj :=
  {[ "id" := JStr "42"; "username" := JStr "jdoe"; "name" := JStr "John Doe";
     "email" := JStr "johndoe@example.com"; "phoneNumber" := JStr "123";
     "password" := JStr "secret" ]}.

Definition asmith : obj :=
  {[ "id" := JStr "7"; "username" := JStr "asmith"; "name" := JStr "A Smith";
     "email" := JStr "asmith@example.com"; "phoneNumber" := JStr "456";
     "password" := JStr "hunter2" ]}.

Definition sample_host : obj :=
  {[ "id" := JStr "h1"; "username" := JStr "linda"; "name" := JStr "Linda" ]}.

Definition sample_property : obj :=
  {[ "id" := JStr "p1"; "title" := JStr "Beautiful House";
     "location" := JStr "Malibu, California"; "rating" := JNum (9 # 2);
     "hostId" := JStr "h1" ]}.

Definition sample_review : obj :=
  {[ "id" := JStr "r1"; "rating" := JNum (inject_Z 5);
     "comment" := JStr "Excellent property!"; "userId" := JStr "42";
     "propertyId" := JStr "p1" ]}.

Definition sample_db : db :=
  {| users := {[ "42" := jdoe; "7" := asmith ]};
     hosts := {[ "h1" := sample_host ]};
     properties := {[ "p1" := sample_property ]};
     bookings := ∅;
     reviews := {[ "r1" := sample_review ]} |}.

Definition sample_store : store db := prisma no_constraint sample_uuid.

Definition sample_secret : string := "s3cr3t".

(** A request as it arrives, before the middleware. *)
Definition incoming (header : option string) (id : string) (b : obj)
  : request :=
  {| authorization := header; params_id := id; body := b; user := ∅ |}.

Definition login_request (username password : string) : request :=
  incoming None "" {[ "username" := JStr username;
                       "password" := JStr password ]}.

(** The token jdoe gets by logging in at instant 0. *)
Definition jdoe_token : string :=
  match json (sent (run sample_store
                      (login_post (J := plain_jwt) (Some sample_secret) 0
                         (login_request "jdoe" "secret"))
                      sample_db)) !! "token" with
  | Some (JStr t) => t
  | _ => ""
  end.

(** The token asmith gets by logging in at instant 0. *)
Definition asmith_token : string :=
  match json (sent (run sample_store
                      (login_post (J := plain_jwt) (Some sample_secret) 0
                         (login_request "asmith" "hunter2"))
                      sample_db)) !! "token" with
  | Some (JStr t) => t
  | _ => ""
  end.

Definition bearer (token : string) : option string :=
  Some ("Bearer " +:+ token).

(** A protected route of the sample process. *)
Definition sample_route (handler : request -> prog) (now : Z) (req : request)
  : outcome db :=
  run sample_store
      (protected (J := plain_jwt) (Some sample_secret) handler now req)
      sample_db.

Definition new_email : obj := {[ "email" := JStr "new@example.com" ]}.

Definition review_of (userId propertyId : string) : obj :=
  {[ "rating" := JNum (inject_Z 5); "comment" := JStr "Excellent property!";
     "userId" := JStr userId; "propertyId" := JStr propertyId ]}.

Definition booking_of (userId propertyId : string) : obj :=
  {[ "startDate" := JStr "2024-01-01"; "endDate" := JStr "2024-01-07";
     "userId" := JStr userId; "propertyId" := JStr propertyId ]}.

Definition property_of (hostId : string) : obj :=
  {[ "title" := JStr "Beautiful House";
     "description" := JStr "A lovely house in the city.";
     "location" := JStr "Malibu, California";
     "pricePerNight" := JNum (1241 # 4);
     "bedroomCount" := JNum (inject_Z 3);
     "bathroomCount" := JNum (inject_Z 2);
     "maxGuestCount" := JNum (inject_Z 6);
     "rating" := JNum (9 # 2);
     "hostId" := JStr hostId ]}.

(** References without the other required fields. *)
Definition references_only (userId propertyId : string) : obj :=
  {[ "userId" := JStr userId; "propertyId" := JStr propertyId ]}.

(** A rating to apply, and an empty comment that is not applied. *)
Definition new_rating : obj :=
  {[ "rating" := JNum (inject_Z 4); "comment" := JStr "" ]}.

(** No call of a run is a mutation. *)
Definition read_only (l : list call) : bool :=
  forallb (fun c => negb (is_mutation c)) l.

(** ** The routes that read, and the creation of a user *)

(** These routes call [findMany], [findFirst] and [findUnique] with a
    [select]; a collection route answers an array.  A route is a tree of
    such calls whose leaves are an answer or a handler of the kind
    above. *)
Record answer := { code : Z; content : jsval }.

Definition of_response (r : response) : answer :=
  {| code := status r; content := JObj (json r) |}.

(** [res.status(c).json(rows)] *)
Definition rows_answer (c : Z) (l : list obj) : answer :=
  {| code := c; content := JArr (JObj <$> l) |}.

Inductive route : Type :=
| Answer (a : answer)
| Then (p : prog)
| FindMany (t : table) (where_ select : obj)
    (k : settled (list obj) -> route)
| FindFirst (t : table) (where_ : obj) (k : settled (option obj) -> route)
| FindUniqueSelect (t : table) (where_ select : obj)
    (k : settled (option obj) -> route).

(** A GET request: [req.query] and [req.params.id]. *)
Record get_request := { query : obj; path_id : string }.

(** [router.post(path, verifyToken, handler)] for a handler that is a
    route. *)
Definition protected_route {J : Jwt} (JWT_SECRET : option string)
    (handler : request -> route) (now : Z) (req : request) : route :=
  match verifyToken JWT_SECRET now req with
  | Answered r => Then (Ret r)
  | Next req' => handler req'
  end.

(** [{ contains: v, mode: "insensitive" }] *)
Definition contains_insensitive (v : jsval) : jsval :=
  JObj {[ "contains" := v; "mode" := JStr "insensitive" ]}.

(** [{ k1: true, k2: true, .. }] *)
Definition select_of (fields : list string) : obj :=
  list_to_map ((fun k => (k, JBool true)) <$> fields).

(** *** routes/users.js, the routes without token *)

Definition user_select : obj := select_of [ "id"; "username"; "email" ].

Definition users_get (req : get_request) : route :=
  let username := get "username" (query req) in
  let email := get "email" (query req) in
  let filters : obj := ∅ in
  let filters :=
    if truthy username
    then <[ "username" := contains_insensitive username ]> filters
    else filters in
  let filters :=
    if truthy email then <[ "email" := contains_insensitive email ]> filters
    else filters in
  FindMany User filters user_select (fun r =>
    match r with
    | Resolved users => Answer (rows_answer 200 users)
    | Rejected _ => Then (Ret server_error)
    end).

Definition users_get_id (req : get_request) : route :=
  let id := path_id req in
  FindUniqueSelect User {[ "id" := JStr id ]} user_select (fun r =>
    match r with
    | Rejected _ => Then (Ret server_error)
    | Resolved None => Then (Ret (reply 404 "User not found"))
    | Resolved (Some user) => Then (Ret {| status := 200; json := user |})
    end).

(** *** routes/users.js, POST /users *)

Definition users_post (req : request) : route :=
  let username := get "username" (body req) in
  let email := get "email" (body req) in
  let password := get "password" (body req) in
  let name := get "name" (body req) in
  let phoneNumber := get "phoneNumber" (body req) in
  let profilePicture := get "profilePicture" (body req) in
  if falsy username || falsy email || falsy password || falsy name then
    Then (Ret (reply 400 "Username, email, password, and name are required"))
  else
    FindFirst User
      {[ "OR" := JArr [ JObj {[ "username" := username ]};
                        JObj {[ "email" := email ]} ] ]}
      (fun r =>
         match r with
         | Rejected _ => Then (Ret server_error)
         | Resolved (Some _) =>
             Then (Ret (reply 400 "Username or email already taken"))
         | Resolved None =>
             Then (Create User
                     {[ "username" := username; "email" := email;
                        "password" := password; "name" := name;
                        "phoneNumber" := phoneNumber;
                        "profilePicture" := profilePicture ]}
                     (fun r =>
                        match r with
                        | Rejected _ => Ret server_error
                        | Resolved newUser =>
                            Ret {| status := 201;
                                   json := delete "password" newUser |}
                        end))
         end).

(** *** routes/reviews.js, the routes without token *)

Definition review_select : obj :=
  select_of [ "id"; "rating"; "comment"; "userId"; "propertyId"; "createdAt" ].

Definition reviews_get (req : get_request) : route :=
  FindMany Review ∅ review_select (fun r =>
    match r with
    | Resolved reviews => Answer (rows_answer 200 reviews)
    | Rejected _ => Then (Ret server_error)
    end).

Definition reviews_get_id (req : get_request) : route :=
  let id := path_id req in
  FindUniqueSelect Review {[ "id" := JStr id ]} review_select (fun r =>
    match r with
    | Rejected _ => Then (Ret server_error)
    | Resolved None => Then (Ret (reply 404 "Review not found"))
    | Resolved (Some review) => Then (Ret {| status := 200; json := review |})
    end).

(** *** routes/bookings.js, the routes without token *)

Definition booking_select : obj :=
  select_of [ "id"; "startDate"; "endDate"; "userId"; "propertyId";
              "createdAt" ].

Definition bookings_get (req : get_request) : route :=
  let userId := get "userId" (query req) in
  let filters : obj := ∅ in
  let filters :=
    if truthy userId then <[ "userId" := userId ]> filters else filters in
  FindMany Booking filters booking_select (fun r =>
    match r with
    | Resolved bookings => Answer (rows_answer 200 bookings)
    | Rejected _ => Then (Ret server_error)
    end).

Definition bookings_get_id (req : get_request) : route :=
  let id := path_id req in
  FindUniqueSelect Booking {[ "id" := JStr id ]} booking_select (fun r =>
    match r with
    | Rejected _ => Then (Ret server_error)
    | Resolved None => Then (Ret (reply 404 "Booking not found"))
    | Resolved (Some booking) =>
        Then (Ret {| status := 200; json := booking |})
    end).

(** *** routes/properties.js, the routes without token *)

Definition property_select : obj :=
  select_of [ "id"; "title"; "description"; "location"; "pricePerNight";
              "bedroomCount"; "bathroomCount"; "maxGuestCount"; "rating";
              "hostId"; "createdAt" ].

(** [{ some: { name: { in: names } } }] *)
Definition some_name_in (names : list string) : jsval :=
  JObj {[ "some" :=
            JObj {[ "name" := JObj {[ "in" := JArr (JStr <$> names) ]} ]} ]}.

(** [amenities.split(",")]: the method of a string; another truthy value
    of the query (an array for a parameter given twice, an object for a
    bracketed one) has no [split] that is a function, and the call
    throws. *)
Definition amenities_names (amenities : jsval) : option (list string) :=
  match amenities with
  | JStr s => Some (split "," s)
  | _ => None
  end.

Section PropertiesGet.

(** [parseFloat], of the runtime. *)
Variable parseFloat : jsval -> jsval.

(** The filters of GET /properties; [None] when building them throws. *)
Definition property_filters (q : obj) : option obj :=
  let location := get "location" q in
  let pricePerNight := get "pricePerNight" q in
  let amenities := get "amenities" q in
  let filters : obj := ∅ in
  let filters :=
    if truthy location
    then <[ "location" := contains_insensitive location ]> filters
    else filters in
  let filters :=
    if truthy pricePerNight
    then <[ "pricePerNight" :=
              JObj {[ "equals" := parseFloat pricePerNight ]} ]> filters
    else filters in
  if truthy amenities then
    match amenities_names amenities with
    | Some amenitiesArray =>
        Some (<[ "amenities" := some_name_in amenitiesArray ]> filters)
    | None => None
    end
  else Some filters.

Definition properties_get (req : get_request) : route :=
  match property_filters (query req) with
  | None => Then (Ret server_error)
  | Some filters =>
      FindMany Property filters property_select (fun r =>
        match r with
        | Resolved properties => Answer (rows_answer 200 properties)
        | Rejected _ => Then (Ret server_error)
        end)
  end.

End PropertiesGet.

Definition properties_get_id (req : get_request) : route :=
  let id := path_id req in
  FindUniqueSelect Property {[ "id" := JStr id ]} property_select (fun r =>
    match r with
    | Rejected _ => Then (Ret server_error)
    | Resolved None => Then (Ret (reply 404 "Property not found"))
    | Resolved (Some property) =>
        Then (Ret {| status := 200; json := property |})
    end).

(** *** Running a route *)

(** The three reading operations, beside the four of [store]. *)
Record reads (S : Type) := {
  rd_findMany : table -> obj -> obj -> S -> settled (list obj) * S;
  rd_findFirst : table -> obj -> S -> settled (option obj) * S;
  rd_findUnique : table -> obj -> obj -> S -> settled (option obj) * S
}.
Arguments rd_findMany {S}.
Arguments rd_findFirst {S}.
Arguments rd_findUnique {S}.

Inductive query_call :=
| QFindMany (t : table) (where_ select : obj)
| QFindFirst (t : table) (where_ : obj)
| QFindUnique (t : table) (where_ select : obj)
| QCall (c : call).

Record result (S : Type) := {
  answered : answer;
  left_in : S;
  queries : list query_call
}.
Arguments answered {S}.
Arguments left_in {S}.
Arguments queries {S}.

Definition asked {S} (q : query_call) (r : result S) : result S :=
  {| answered := answered r; left_in := left_in r; queries := q :: queries r |}.

Fixpoint run_route {S} (st : store S) (rd : reads S) (r : route) (s : S)
  : result S :=
  match r with
  | Answer a => {| answered := a; left_in := s; queries := [] |}
  | Then p =>
      let o := run st p s in
      {| answered := of_response (sent o); left_in := final o;
         queries := QCall <$> calls o |}
  | FindMany t w sel k =>
      let '(a, s') := rd_findMany rd t w sel s in
      asked (QFindMany t w sel) (run_route st rd (k a) s')
  | FindFirst t w k =>
      let '(a, s') := rd_findFirst rd t w s in
      asked (QFindFirst t w) (run_route st rd (k a) s')
  | FindUniqueSelect t w sel k =>
      let '(a, s') := rd_findUnique rd t w sel s in
      asked (QFindUnique t w sel) (run_route st rd (k a) s')
  end.

(** *** The reading operations over the tables of the schema *)

(** The fields of each model of [prisma/schema.prisma], scalars and
    relations. *)
Definition schema_fields (t : table) : list string :=
  match t with
  | User =>
      [ "id"; "username"; "name"; "email"; "phoneNumber"; "profilePicture";
        "password"; "bookings"; "reviews" ]
  | Host =>
      [ "id"; "username"; "name"; "email"; "phoneNumber"; "profilePicture";
        "aboutMe"; "listings" ]
  | Property =>
      [ "id"; "title"; "description"; "location"; "pricePerNight";
        "bedroomCount"; "bathroomCount"; "maxGuestCount"; "rating";
        "amenities"; "bookings"; "reviews"; "host"; "hostId" ]
  | Booking =>
      [ "id"; "startDate"; "endDate"; "property"; "propertyId"; "user";
        "userId" ]
  | Review =>
      [ "id"; "rating"; "comment"; "property"; "propertyId"; "user";
        "userId" ]
  end.

Definition is_field (t : table) (k : string) : bool :=
  existsb (String.eqb k) (schema_fields t).

(** The client checks a [select] against the model before it queries: a
    key that is no field of the model is a validation error. *)
Definition select_is_valid (t : table) (select : obj) : bool :=
  forallb (fun kv => is_field t (fst kv)) (map_to_list select).

Definition is_true (v : jsval) : bool :=
  match v with
  | JBool true => true
  | _ => false
  end.

(** The fields of a row that a [select] keeps. *)
Definition selected (select row : obj) : obj :=
  filter (fun kv => is_true (get (fst kv) select) = true) row.

Section PrismaReads.

(** Left open: what a [where] the client refuses, and which rows one
    matches. *)
Variable refused : table -> obj -> option obj.
Variable matches : table -> obj -> obj -> bool.

Definition prisma_findMany (t : table) (where_ select : obj) (d : db)
  : settled (list obj) * db :=
  if select_is_valid t select then
    match refused t where_ with
    | Some err => (Rejected err, d)
    | None =>
        (Resolved
           (selected select
              <$> List.filter (matches t where_)
                              (snd <$> map_to_list (rows t d))), d)
    end
  else (Rejected validation_error, d).

Definition prisma_findFirst (t : table) (where_ : obj) (d : db)
  : settled (option obj) * db :=
  match refused t where_ with
  | Some err => (Rejected err, d)
  | None =>
      (Resolved
         (List.find (matches t where_) (snd <$> map_to_list (rows t d))), d)
  end.

(** [findUnique({ where: { id }, select })] *)
Definition prisma_findUnique_select (t : table) (where_ select : obj) (d : db)
  : settled (option obj) * db :=
  if select_is_valid t select then
    match where_ !! "id" with
    | Some (JStr s) => (Resolved (selected select <$> rows t d !! s), d)
    | _ => (Rejected validation_error, d)
    end
  else (Rejected validation_error, d).

Definition prisma_reads : reads db :=
  {| rd_findMany := prisma_findMany;
     rd_findFirst := prisma_findFirst;
     rd_findUnique := prisma_findUnique_select |}.

End PrismaReads.

(** ** Shapes of a run *)

(** Every call but the last one is a read. *)
Definition reads_before_last (l : list call) : bool :=
  read_only (removelast l).

Definition is_write (q : query_call) : bool :=
  match q with
  | QCall c => is_mutation c
  | _ => false
  end.

(** The routes with a token that take the request body, and those that
    take the path id. *)
Definition mutating_handlers (show : jsval -> string)
  : list (request -> prog) :=
  [ users_put; users_delete show;
    reviews_post; reviews_put; reviews_delete show;
    bookings_post; bookings_put; bookings_delete show;
    properties_post; properties_put; properties_delete show ].

(** The answers of these routes and of the login that are no success. *)
Definition failures : list (Z * string) :=
  [ (400, "Username and password are required");
    (401, "Invalid credentials");
    (400, "At least one field is required (username, email, or password)");
    (403, "You can only update your own account");
    (403, "You can only delete your own account");
    (404, "User not found");
    (400, "Rating, comment, user ID, and property ID are required");
    (400, "At least one field (rating, comment, userId, propertyId) is required");
    (404, "Review not found");
    (400, "Start date, end date, user ID, and property ID are required");
    (400, "At least one field (startDate, endDate, userId, propertyId) is required");
    (404, "Booking not found");
    (400, "All fields are required");
    (400, "At least one field (title, description, location, pricePerNight, bedroomCount, bathroomCount, maxGuestCount, rating, or hostId) is required");
    (404, "Property not found");
    (404, "Host not found");
    (400, "Username, email, password, and name are required");
    (400, "Username or email already taken");
    (500, "Server error") ].

Definition is_failure (r : response) : Prop :=
  exists c m, In (c, m) failures /\ r = reply c m.

(** The data of the three creations. *)
Definition review_data (b : obj) : obj :=
  {[ "rating" := get "rating" b; "comment" := get "comment" b;
     "userId" := get "userId" b; "propertyId" := get "propertyId" b ]}.

Definition booking_data (b : obj) : obj :=
  {[ "startDate" := JDate (get "startDate" b);
     "endDate" := JDate (get "endDate" b);
     "userId" := get "userId" b; "propertyId" := get "propertyId" b ]}.

Definition property_data (b : obj) : obj :=
  {[ "title" := get "title" b; "description" := get "description" b;
     "location" := get "location" b;
     "pricePerNight" := get "pricePerNight" b;
     "bedroomCount" := get "bedroomCount" b;
     "bathroomCount" := get "bathroomCount" b;
     "maxGuestCount" := get "maxGuestCount" b; "rating" := get "rating" b;
     "hostId" := get "hostId" b ]}.

(** A creation that looks up a user, then a property, then creates. *)
Definition created_after_two_lookups {S : Type} (st : store S) (s : S)
    (t : table) (b data : obj) (o : outcome S) : Prop :=
  exists u s1 p s2 row,
    st_findUnique st User "id" (get "userId" b) s = (Resolved (Some u), s1)
    /\ st_findUnique st Property "id" (get "propertyId" b) s1
       = (Resolved (Some p), s2)
    /\ st_create st t data s2 = (Resolved row, final o)
    /\ sent o = {| status := 201; json := row |}
    /\ calls o = [user_lookup b; property_lookup b; CCreate t data].

(** A run that stopped before the store, with a refusal. *)
Definition stopped {S : Type} (s : S) (o : outcome S) : Prop :=
  calls o = [] /\ final o = s /\ In (status (sent o)) [400; 401; 403].

(** The rows of an answer have their fields among [fields]. *)
Definition only_fields (fields : list string) (o : obj) : Prop :=
  forall k, is_Some (o !! k) -> In k fields.

(** A store whose reads leave its state alone and whose mutations, when
    they throw, have changed nothing. *)
Definition transactional {S : Type} (st : store S) : Prop :=
  (forall t f v s, snd (st_findUnique st t f v s) = s)
  /\ (forall t d s err s', st_create st t d s = (Rejected err, s') -> s' = s)
  /\ (forall t i d s err s',
        st_update st t i d s = (Rejected err, s') -> s' = s)
  /\ (forall t i s err s', st_delete st t i s = (Rejected err, s') -> s' = s).

(** Reading operations that leave the state alone. *)
Definition quiet {S : Type} (rd : reads S) : Prop :=
  (forall t w sel s, snd (rd_findMany rd t w sel s) = s)
  /\ (forall t w s, snd (rd_findFirst rd t w s) = s)
  /\ (forall t w sel s, snd (rd_findUnique rd t w sel s) = s).

(** Sample reads: every [where] is accepted; it matches every row, or
    none. *)
Definition sample_reads : reads db :=
  prisma_reads (fun _ _ => None) (fun _ _ _ => true).

Definition sample_reads_none : reads db :=
  prisma_reads (fun _ _ => None) (fun _ _ _ => false).

Definition sample_parseFloat : jsval -> jsval := fun _ => JNum (1241 # 4).

Definition get_of (q : obj) (id : string) : get_request :=
  {| query := q; path_id := id |}.

Definition new_user : obj :=
  {[ "username" := JStr "newuser"; "email" := JStr "newuser@example.com";
     "password" := JStr "newpassword123"; "name" := JStr "New User" ]}.

(** The payload of the test of the repository: no name. *)
Definition new_user_without_name : obj :=
  {[ "username" := JStr "newuser"; "email" := JStr "newuser@example.com";
     "password" := JStr "newpassword123" ]}.

(** ** The seed from the examples of the OpenAPI document *)

(** [v.k] for a value that is neither null nor undefined, and a key that
    is no built-in property of strings and arrays (the keys of the seed
    are not). *)
Definition prop (k : string) (v : jsval) : jsval :=
  match v with
  | JObj o => get k o
  | _ => JUndefined
  end.

(** [a || b] *)
Definition or_else (a b : jsval) : jsval := if truthy a then a else b.

(** [{ connect: { id: v } }] *)
Definition connect (v : jsval) : jsval :=
  JObj {[ "connect" := JObj {[ "id" := v ]} ]}.

Definition type_error : obj := {[ "name" := JStr "TypeError" ]}.

(** [getComponentsSchema(schemaName)] over the parsed document; [None]
    when reading [openApiData.components] throws, the document being null
    or undefined. *)
Definition getComponentsSchema (openApiData : jsval) (schemaName : string)
  : option jsval :=
  match openApiData with
  | JUndefined | JNull => None
  | _ =>
      let components := prop "components" openApiData in
      if truthy components && truthy (prop "schemas" components) then
        let entry := prop schemaName (prop "schemas" components) in
        let example :=
          match entry with
          | JUndefined | JNull => JUndefined
          | _ => prop "example" entry
          end in
        Some (or_else example (JArr []))
      else Some (JArr [])
  end.

(** The seed: store calls in sequence, until it is done or an error is
    thrown out of [main]. *)
Inductive script : Type :=
| Done
| Thrown (err : obj)
| Look (t : table) (id : jsval) (k : settled (option obj) -> script)
| Make (t : table) (data : obj) (k : settled obj -> script).

(** A call of the seed with what the store answered. *)
Inductive event :=
| Looked (t : table) (id : jsval) (r : settled (option obj))
| Made (t : table) (data : obj) (r : settled obj).

Record seeded (S : Type) := {
  ended : option obj;      (* the error [main] rejects with, if any *)
  store_after : S;
  events : list event
}.
Arguments ended {S}.
Arguments store_after {S}.
Arguments events {S}.

Definition then_event {S} (e : event) (r : seeded S) : seeded S :=
  {| ended := ended r; store_after := store_after r; events := e :: events r |}.

Fixpoint run_script {S} (st : store S) (p : script) (s : S) : seeded S :=
  match p with
  | Done => {| ended := None; store_after := s; events := [] |}
  | Thrown err => {| ended := Some err; store_after := s; events := [] |}
  | Look t id k =>
      let '(a, s') := st_findUnique st t "id" id s in
      then_event (Looked t id a) (run_script st (k a) s')
  | Make t data k =>
      let '(a, s') := st_create st t data s in
      then_event (Made t data a) (run_script st (k a) s')
  end.

Definition is_P2002 (err : obj) : bool :=
  strict_eq (get "code" err) (JStr "P2002").

Definition seed_user_data (user : jsval) : obj :=
  {[ "id" := prop "id" user; "username" := prop "username" user;
     "name" := prop "name" user; "password" := prop "password" user;
     "email" := prop "email" user; "phoneNumber" := prop "phoneNumber" user;
     "profilePicture" := prop "profilePicture" user ]}.

Definition seed_host_data (host : jsval) : obj :=
  {[ "id" := prop "id" host; "username" := prop "username" host;
     "name" := prop "name" host; "email" := prop "email" host;
     "phoneNumber" := prop "phoneNumber" host;
     "profilePicture" := prop "profilePicture" host;
     "aboutMe" := prop "aboutMe" host ]}.

Definition seed_booking_data (booking : jsval) : obj :=
  {[ "id" := prop "id" booking;
     "startDate" := JDate (prop "startDate" booking);
     "endDate" := JDate (prop "endDate" booking);
     "user" := connect (prop "userId" booking);
     "property" := connect (prop "propertyId" booking) ]}.

Definition seed_review_data (review : jsval) : obj :=
  {[ "id" := prop "id" review; "rating" := prop "rating" review;
     "comment" := prop "comment" review;
     "property" := connect (prop "propertyId" review);
     "user" := connect (prop "userId" review) ]}.

Section Seed.

(** Of the runtime: [parseFloat], whether a date is invalid
    ([isNaN(date)]), and the characters a [for .. of] over a string
    goes through. *)
Variable parseFloat : jsval -> jsval.
Variable invalid_date : jsval -> bool.
Variable characters : string -> list string.

Definition seed_property_data (property : jsval) : obj :=
  {[ "id" := prop "id" property; "title" := prop "title" property;
     "description" := prop "description" property;
     "location" := prop "location" property;
     "pricePerNight" := parseFloat (prop "pricePerNight" property);
     "bedroomCount" := or_else (prop "bedroomCount" property)
                               (JNum (inject_Z 0));
     "bathroomCount" := or_else (prop "bathroomCount" property)
                                (JNum (inject_Z 0));
     "maxGuestCount" := or_else (prop "maxGuestCount" property)
                                (JNum (inject_Z 1));
     "rating" := or_else (prop "rating" property) (JNum (inject_Z 0));
     "host" := connect (prop "hostId" property) ]}.

(** [for (const x of v)]: the elements of an array, the characters of a
    string; another value is not iterable and the loop throws. *)
Definition iterate (v : jsval) : option (list jsval) :=
  match v with
  | JArr l => Some l
  | JStr s => Some (JStr <$> characters s)
  | _ => None
  end.

(** The five loops, each followed by the rest of [main]. *)
Fixpoint seed_users (users : list jsval) (rest : script) : script :=
  match users with
  | [] => rest
  | user :: users' =>
      if truthy user then
        Make User (seed_user_data user) (fun r =>
          match r with
          | Resolved _ => seed_users users' rest
          | Rejected err =>
              if is_P2002 err then seed_users users' rest else Thrown err
          end)
      else seed_users users' rest
  end.

Fixpoint seed_hosts (hosts : list jsval) (rest : script) : script :=
  match hosts with
  | [] => rest
  | host :: hosts' =>
      if truthy host then
        Make Host (seed_host_data host) (fun r =>
          match r with
          | Resolved _ => seed_hosts hosts' rest
          | Rejected err => Thrown err
          end)
      else seed_hosts hosts' rest
  end.

Fixpoint seed_properties (properties : list jsval) (rest : script) : script :=
  match properties with
  | [] => rest
  | property :: properties' =>
      if truthy property then
        Look Host (prop "hostId" property) (fun r =>
          match r with
          | Resolved (Some _) =>
              Make Property (seed_property_data property)
                (fun _ => seed_properties properties' rest)
          | Resolved None => seed_properties properties' rest
          | Rejected _ => seed_properties properties' rest
          end)
      else seed_properties properties' rest
  end.

Fixpoint seed_bookings (bookings : list jsval) (rest : script) : script :=
  match bookings with
  | [] => rest
  | booking :: bookings' =>
      if truthy booking then
        if invalid_date (JDate (prop "startDate" booking))
           || invalid_date (JDate (prop "endDate" booking))
        then seed_bookings bookings' rest
        else
          Make Booking (seed_booking_data booking) (fun r =>
            match r with
            | Resolved _ => seed_bookings bookings' rest
            | Rejected err => Thrown err
            end)
      else seed_bookings bookings' rest
  end.

Fixpoint seed_reviews (reviews : list jsval) (rest : script) : script :=
  match reviews with
  | [] => rest
  | review :: reviews' =>
      if truthy review then
        Look Property (prop "propertyId" review) (fun r =>
          match r with
          | Resolved (Some _) =>
              Make Review (seed_review_data review) (fun r =>
                match r with
                | Resolved _ => seed_reviews reviews' rest
                | Rejected err => Thrown err
                end)
          | Resolved None => seed_reviews reviews' rest
          | Rejected err => Thrown err
          end)
      else seed_reviews reviews' rest
  end.

(** [const xs = getComponentsSchema(name); for (const x of xs) ..] *)
Definition stage (openApiData : jsval) (schemaName : string)
    (loop : list jsval -> script -> script) (rest : script) : script :=
  match getComponentsSchema openApiData schemaName with
  | None => Thrown type_error
  | Some examples =>
      match iterate examples with
      | None => Thrown type_error
      | Some l => loop l rest
      end
  end.

(** [main], from the parsed document on. *)
Definition main (openApiData : jsval) : script :=
  stage openApiData "User" seed_users
    (stage openApiData "Host" seed_hosts
       (stage openApiData "Property" seed_properties
          (stage openApiData "Booking" seed_bookings
             (stage openApiData "Review" seed_reviews Done)))).

End Seed.

(** The answers that stop the seed: those to a call that stands outside
    a [try], and to the creation of a user when the error is not P2002. *)
Definition fatal (e : event) : option obj :=
  match e with
  | Made User _ (Rejected err) => if is_P2002 err then None else Some err
  | Made Host _ (Rejected err) => Some err
  | Made Booking _ (Rejected err) => Some err
  | Made Review _ (Rejected err) => Some err
  | Looked Property _ (Rejected err) => Some err
  | _ => None
  end.

(** Each creation of a property, and of a review, comes right after the
    lookup of the host, and of the property, it connects to, and that
    lookup found a row. *)
Definition guard_of (e : event) : option (table * jsval) :=
  match e with
  | Made Property data _ => Some (Host, get "host" data)
  | Made Review data _ => Some (Property, get "property" data)
  | _ => None
  end.

Fixpoint guarded (prev : option event) (l : list event) : Prop :=
  match l with
  | [] => True
  | e :: rest =>
      match guard_of e with
      | Some (t, target) =>
          exists id row,
            prev = Some (Looked t id (Resolved (Some row)))
            /\ target = connect id
      | None => True
      end
      /\ guarded (Some e) rest
  end.

(** A script all of whose runs are guarded, whatever event came before. *)
Definition safe {S : Type} (st : store S) (p : script) : Prop :=
  forall s prev, guarded prev (events (run_script st p s)).






Section SeedPlan.

Variable invalid_date : jsval -> bool.
Variable characters : string -> list string.




End SeedPlan.





(** ** Tactics *)

(** Case analysis on what the store answers to the calls of a create
    route. *)
Ltac by_store_answers :=
  repeat match goal with
         | |- context [st_findUnique ?st ?t ?f ?v ?s] =>
             destruct (st_findUnique st t f v s) as [[[?|]|?] ?];
             cbn [run after sent calls status reply]
         | |- context [st_create ?st ?t ?d ?s] =>
             destruct (st_create st t d s) as [[?|?] ?];
             cbn [run after sent calls status reply]
         end;
  try (intros H; discriminate H); try reflexivity.

(** * Properties *)

(** ** Splitting the Authorization header *)

Lemma split_no_space (s : string) : no_space s -> split " " s = [s].
Proof.
  unfold no_space. induction s as [|c r IH]; simpl; [done|].
  intros [Hc Hr]%orb_false_iff. rewrite Hc, (IH Hr). done.
Qed.

Lemma split_bearer (token : string) :
  no_space token -> split " " ("Bearer " +:+ token) = ["Bearer"; token].
Proof.
  intros H. simpl. change ("" +:+ token) with token.
  by rewrite (split_no_space _ H).
Qed.

Section Middleware.

Context {J : Jwt}.
Variable JWT_SECRET : option string.

Lemma bearer_token_of_header (req : request) (token : string) :
  authorization req = Some ("Bearer " +:+ token) -> no_space token ->
  token <> "" ->
  token_present (bearer_token req) = Some token.
Proof.
  intros Hh Hs Hne. unfold bearer_token. rewrite Hh, (split_bearer _ Hs).
  simpl. destruct (String.eqb_spec token ""); congruence.
Qed.

Lemma protected_missing (handler : request -> prog) (now : Z) (req : request) :
  token_present (bearer_token req) = None ->
  protected JWT_SECRET handler now req = Ret missing_credential.
Proof. intros H. unfold protected, verifyToken. by rewrite H. Qed.

Lemma protected_invalid (handler : request -> prog) (now : Z) (req : request)
    (token : string) :
  token_present (bearer_token req) = Some token ->
  jwt_verify token JWT_SECRET now = None ->
  protected JWT_SECRET handler now req = Ret invalid_token.
Proof. intros H Hv. unfold protected, verifyToken. by rewrite H, Hv. Qed.

Lemma protected_valid (handler : request -> prog) (now : Z) (req : request)
    (token : string) (decoded : obj) :
  token_present (bearer_token req) = Some token ->
  jwt_verify token JWT_SECRET now = Some decoded ->
  protected JWT_SECRET handler now req = handler (set_user req decoded).
Proof. intros H Hv. unfold protected, verifyToken. by rewrite H, Hv. Qed.

(** C4.  A protected route whose request carries no token (no
    Authorization header, or no non-empty second segment in it) answers
    401 with the missing-credential message; one whose token the library
    refuses (malformed, badly signed or expired: [jwt_verify] throws)
    answers 401 with the invalid-token message.  In both cases the
    handler is not called: whatever the handler and the store, no store
    call is made and the store is left as it was. *)
Theorem unauthorized_requests_stop_at_the_middleware
    {S : Type} (st : store S) (s : S)
    (handler : request -> prog) (now : Z) (req : request) :
  (authorization req = None ->
     run st (protected JWT_SECRET handler now req) s
     = {| sent := missing_credential; final := s; calls := [] |})
  /\ (token_present (bearer_token req) = None ->
     run st (protected JWT_SECRET handler now req) s
     = {| sent := missing_credential; final := s; calls := [] |})
  /\ (forall token,
       token_present (bearer_token req) = Some token ->
       jwt_verify token JWT_SECRET now = None ->
       run st (protected JWT_SECRET handler now req) s
       = {| sent := invalid_token; final := s; calls := [] |})
  /\ status missing_credential = 401
  /\ json missing_credential
     = message "No token provided, authorization denied"
  /\ status invalid_token = 401
  /\ json invalid_token = message "Invalid or expired token".
Proof.
  repeat split.
  - intros H. rewrite protected_missing; [done|].
    unfold bearer_token. by rewrite H.
  - intros H. by rewrite protected_missing.
  - intros token H Hv. by rewrite (protected_invalid _ _ _ token).
Qed.

(** C10.  When the Authorization header holds no space (a raw token
    without the Bearer prefix, say), the token counts as absent: the
    answer is 401 with the message No token provided, authorization
    denied, no store call is made, and the token library has no part in
    it: the answer is this one for every [jwt_verify]. *)
Theorem header_without_space_is_missing_credential
    {S : Type} (st : store S) (s : S)
    (handler : request -> prog) (now : Z) (req : request) (h : string) :
  authorization req = Some h ->
  no_space h ->
  run st (protected JWT_SECRET handler now req) s
  = {| sent := reply 401 "No token provided, authorization denied";
       final := s; calls := [] |}.
Proof.
  intros Hh Hs. rewrite protected_missing; [done|].
  unfold bearer_token. by rewrite Hh, (split_no_space _ Hs).
Qed.

End Middleware.

(** ** The transparent token library meets the contract *)

Lemma bits_to_pos_to_bits (p : positive) : bits_to_pos (pos_to_bits p) = Some p.
Proof. induction p as [q IH|q IH|]; simpl; [by rewrite IH..|done]. Qed.

Lemma pos_to_bits_no_space (p : positive) : no_space (pos_to_bits p).
Proof. unfold no_space. induction p as [q IH|q IH|]; simpl; done. Qed.

Lemma login_payload_userId (a b : jsval) :
  ({[ "userId" := a; "username" := b ]} : obj) !! "userId" = Some a.
Proof. by rewrite lookup_insert_eq. Qed.

Lemma login_payload_username (a b : jsval) :
  ({[ "userId" := a; "username" := b ]} : obj) !! "username" = Some b.
Proof. rewrite lookup_insert_ne by done. by rewrite lookup_singleton_eq. Qed.

Lemma plain_jwt_contract : JwtContract plain_jwt.
Proof.
  constructor. intros uid uname secret lifetime now Hsecret.
  exists (String "J"
            (pos_to_bits (encode (secret, uid, uname, seconds now, lifetime)))).
  assert (Hne : String.eqb secret "" = false)
    by (destruct (String.eqb_spec secret ""); congruence).
  repeat split.
  - simpl. unfold plain_sign.
    by rewrite login_payload_userId, login_payload_username, Hne.
  - done.
  - apply pos_to_bits_no_space.
  - intros later. simpl. unfold plain_verify.
    change (Ascii.eqb "J" "J") with true. cbv iota.
    rewrite bits_to_pos_to_bits. simpl. rewrite decode_encode.
    by rewrite String.eqb_refl.
Qed.

(** ** Login *)

Lemma strict_eq_strings (a b : string) :
  strict_eq (JStr a) (JStr b) = true <-> a = b.
Proof. simpl. apply String.eqb_eq. Qed.

Lemma expiry_in_milliseconds (issuedAt later : Z) :
  (seconds later <? issuedAt + expiresIn) = true
  <-> later < (issuedAt + 7 * 3600) * 1000.
Proof.
  unfold seconds, expiresIn. rewrite Z.ltb_lt. split; intros H.
  - apply Z.nle_gt. intros Hle. apply Z.nle_gt in H. apply H.
    apply Z.div_le_lower_bound; lia.
  - apply Z.div_lt_upper_bound; lia.
Qed.

Section Login.

Context {J : Jwt}.
Variable JWT_SECRET : option string.

Lemma login_post_missing {S : Type} (st : store S) (s : S)
    (now : Z) (req : request) :
  truthy (get "username" (body req)) = false
  \/ truthy (get "password" (body req)) = false ->
  run st (login_post JWT_SECRET now req) s
  = {| sent := reply 400 "Username and password are required";
       final := s; calls := [] |}.
Proof.
  unfold login_post, falsy. intros [-> | ->]; simpl; [done|].
  by rewrite orb_true_r.
Qed.

Lemma login_post_found {S : Type} (st : store S) (s s' : S)
    (now : Z) (req : request) (stored : option obj) :
  truthy (get "username" (body req)) = true ->
  truthy (get "password" (body req)) = true ->
  st_findUnique st User "username" (get "username" (body req)) s
  = (Resolved stored, s') ->
  run st (login_post JWT_SECRET now req) s
  = {| sent :=
         match stored with
         | None => invalid_credentials
         | Some row =>
             if strict_eq (get "password" (body req)) (get "password" row)
             then match jwt_sign {[ "userId" := get "id" row;
                                    "username" := get "username" row ]}
                                 JWT_SECRET expiresIn now with
                  | Some token =>
                      {| status := 200; json := {[ "token" := JStr token ]} |}
                  | None => server_error
                  end
             else invalid_credentials
         end;
       final := s';
       calls := [CFindUnique User "username" (get "username" (body req))] |}.
Proof.
  intros Hu Hp Hfind. unfold login_post, falsy. rewrite Hu, Hp. simpl.
  rewrite Hfind. destruct stored as [row|]; [|done].
  unfold strict_neq.
  destruct (strict_eq (get "password" (body req)) (get "password" row));
    simpl; [|done].
  by destruct (jwt_sign _ _ _ _).
Qed.

(** C6.  POST /login, case by case.  A missing (falsy) username or
    password is a 400 without a store call.  Otherwise the user is looked
    up by username: no row, or a row whose stored password is not
    strictly equal to the one supplied, is a 401 with the one message
    Invalid credentials; a row whose stored password is strictly equal is
    a 200 that carries the token the library signs.  On strings strict
    equality is equality of the strings, so it is exact and tells case
    apart. *)
Theorem login_outcomes {S : Type} (st : store S) (s : S)
    (now : Z) (req : request) :
  let username := get "username" (body req) in
  let password := get "password" (body req) in
  let lookup := CFindUnique User "username" username in
  (truthy username = false \/ truthy password = false ->
     run st (login_post JWT_SECRET now req) s
     = {| sent := reply 400 "Username and password are required";
          final := s; calls := [] |})
  /\ (truthy username = true -> truthy password = true ->
      forall s',
        st_findUnique st User "username" username s = (Resolved None, s') ->
        run st (login_post JWT_SECRET now req) s
        = {| sent := reply 401 "Invalid credentials";
             final := s'; calls := [lookup] |})
  /\ (truthy username = true -> truthy password = true ->
      forall stored s',
        st_findUnique st User "username" username s
        = (Resolved (Some stored), s') ->
        strict_eq password (get "password" stored) = false ->
        run st (login_post JWT_SECRET now req) s
        = {| sent := reply 401 "Invalid credentials";
             final := s'; calls := [lookup] |})
  /\ (truthy username = true -> truthy password = true ->
      forall stored s' token,
        st_findUnique st User "username" username s
        = (Resolved (Some stored), s') ->
        strict_eq password (get "password" stored) = true ->
        jwt_sign {[ "userId" := get "id" stored;
                    "username" := get "username" stored ]}
                 JWT_SECRET expiresIn now = Some token ->
        run st (login_post JWT_SECRET now req) s
        = {| sent := {| status := 200; json := {[ "token" := JStr token ]} |};
             final := s'; calls := [lookup] |})
  /\ (forall a b : string, strict_eq (JStr a) (JStr b) = true <-> a = b).
Proof.
  intros username password lookup. repeat split.
  - apply login_post_missing.
  - intros Hu Hp s' Hfind. by rewrite (login_post_found st s s' now req None).
  - intros Hu Hp stored s' Hfind Hpw.
    rewrite (login_post_found st s s' now req (Some stored)) by done.
    fold password. by rewrite Hpw.
  - intros Hu Hp stored s' token Hfind Hpw Hsign.
    rewrite (login_post_found st s s' now req (Some stored)) by done.
    fold password. by rewrite Hpw, Hsign.
  - apply strict_eq_strings.
  - apply strict_eq_strings.
Qed.

End Login.

(** ** From login to the middleware *)

Lemma login_claims_id (uid uname : string) (issuedAt : Z) :
  get "id" (login_claims uid uname issuedAt) = JUndefined.
Proof.
  unfold get, login_claims, with_registered_claims.
  rewrite !lookup_insert_ne by done. by rewrite lookup_singleton_ne.
Qed.

Lemma login_claims_userId (uid uname : string) (issuedAt : Z) :
  get "userId" (login_claims uid uname issuedAt) = JStr uid.
Proof.
  unfold get, login_claims, with_registered_claims.
  rewrite !lookup_insert_ne by done. by rewrite lookup_insert_eq.
Qed.

Section Issued.

Context {J : Jwt} {C : JwtContract J}.
Variable secret : string.
Hypothesis secret_set : secret <> "".

(** What logging in gives, for a stored user whose id and username are
    the strings of the schema: a 200 with a token that the middleware
    lets through, with the login claims as [req.user], exactly while the
    clock in whole seconds is before [iat] plus seven hours. *)
Lemma login_then_verify {S : Type} (st : store S) (s s' : S)
    (now : Z) (req : request) (stored : obj) (uid uname : string) :
  truthy (get "username" (body req)) = true ->
  truthy (get "password" (body req)) = true ->
  st_findUnique st User "username" (get "username" (body req)) s
  = (Resolved (Some stored), s') ->
  get "id" stored = JStr uid ->
  get "username" stored = JStr uname ->
  strict_eq (get "password" (body req)) (get "password" stored) = true ->
  exists token,
    run st (login_post (Some secret) now req) s
    = {| sent := {| status := 200; json := {[ "token" := JStr token ]} |};
         final := s';
         calls := [CFindUnique User "username" (get "username" (body req))] |}
    /\ forall (handler : request -> prog) (later : Z) (req' : request),
        authorization req' = Some ("Bearer " +:+ token) ->
        protected (Some secret) handler later req'
        = if seconds later <? seconds now + expiresIn
          then handler (set_user req' (login_claims uid uname (seconds now)))
          else Ret invalid_token.
Proof.
  intros Hu Hp Hfind Hid Hname Hpw.
  destruct (jwt_sign_issues uid uname secret expiresIn now secret_set)
    as (token & Hsign & Hne & Hns & Hverify).
  exists token. split.
  - rewrite (login_post_found (Some secret) st s s' now req (Some stored))
      by done.
    by rewrite Hpw, Hid, Hname, Hsign.
  - intros handler later req' Hh.
    pose proof (bearer_token_of_header req' token Hh Hns Hne) as Htok.
    specialize (Hverify later). fold (login_claims uid uname (seconds now)) in Hverify.
    destruct (seconds later <? seconds now + expiresIn).
    + by apply (protected_valid _ _ _ _ token).
    + by apply (protected_invalid _ _ _ _ token).
Qed.

(** C8.  Logging in with the username and password of a stored user
    gives a token whose claim, issued at [issuedAt] (the clock in whole
    seconds), the middleware accepts at every instant strictly before
    [issuedAt] plus seven hours and rejects, with a 401, at that instant
    and at every later one.  Instants are in milliseconds, as the clock
    is. *)
Theorem login_token_valid_for_seven_hours {S : Type} (st : store S) (s s' : S)
    (now : Z) (req : request) (stored : obj) (uid uname : string) :
  truthy (get "username" (body req)) = true ->
  truthy (get "password" (body req)) = true ->
  st_findUnique st User "username" (get "username" (body req)) s
  = (Resolved (Some stored), s') ->
  get "id" stored = JStr uid ->
  get "username" stored = JStr uname ->
  strict_eq (get "password" (body req)) (get "password" stored) = true ->
  let issuedAt := seconds now in
  exists token,
    sent (run st (login_post (Some secret) now req) s)
    = {| status := 200; json := {[ "token" := JStr token ]} |}
    /\ forall (handler : request -> prog) (later : Z) (req' : request),
        authorization req' = Some ("Bearer " +:+ token) ->
        (later < (issuedAt + 7 * 3600) * 1000 ->
           verifyToken (Some secret) later req'
           = Next (set_user req' (login_claims uid uname issuedAt)))
        /\ ((issuedAt + 7 * 3600) * 1000 <= later ->
           verifyToken (Some secret) later req' = Answered invalid_token
           /\ protected (Some secret) handler later req' = Ret invalid_token).
Proof.
  intros Hu Hp Hfind Hid Hname Hpw issuedAt.
  destruct (jwt_sign_issues uid uname secret expiresIn now secret_set)
    as (token & Hsign & Hne & Hns & Hverify).
  exists token. split.
  - rewrite (login_post_found (Some secret) st s s' now req (Some stored))
      by done.
    by rewrite Hpw, Hid, Hname, Hsign.
  - intros handler later req' Hh.
    pose proof (bearer_token_of_header req' token Hh Hns Hne) as Htok.
    specialize (Hverify later).
    fold (login_claims uid uname (seconds now)) in Hverify.
    unfold protected, verifyToken. rewrite Htok, Hverify.
    fold issuedAt. split.
    + intros Hlt.
      apply (proj2 (expiry_in_milliseconds issuedAt later)) in Hlt.
      by rewrite Hlt.
    + intros Hge.
      destruct (seconds later <? issuedAt + expiresIn) eqn:E; [|done].
      apply (proj1 (expiry_in_milliseconds issuedAt later)) in E. lia.
Qed.

End Issued.

(** ** The user account: update and delete *)

Lemma users_put_no_field {S : Type} (st : store S) (s : S) (req : request) :
  no_user_field (body req) = true ->
  run st (users_put req) s
  = {| sent :=
         reply 400
           "At least one field is required (username, email, or password)";
       final := s; calls := [] |}.
Proof. unfold users_put, no_user_field. by intros ->. Qed.

Lemma users_put_forbidden {S : Type} (st : store S) (s : S) (req : request) :
  no_user_field (body req) = false ->
  strict_eq (get "id" (user req)) (JStr (params_id req)) = false ->
  run st (users_put req) s
  = {| sent := reply 403 "You can only update your own account";
       final := s; calls := [] |}.
Proof.
  unfold users_put, no_user_field, strict_neq. by intros -> ->.
Qed.

Lemma users_delete_forbidden (show : jsval -> string)
    {S : Type} (st : store S) (s : S) (req : request) :
  strict_eq (get "id" (user req)) (JStr (params_id req)) = false ->
  run st (users_delete show req) s
  = {| sent := reply 403 "You can only delete your own account";
       final := s; calls := [] |}.
Proof. unfold users_delete, strict_neq. by intros ->. Qed.

(** The ownership check reads [req.user.id]; the claims of a login token
    have [userId] and no [id], so the check fails against every path id,
    the token's own subject included. *)
Lemma login_claims_never_own (uid uname : string) (issuedAt : Z) (id : string) :
  strict_eq (get "id" (login_claims uid uname issuedAt)) (JStr id) = false.
Proof. by rewrite login_claims_id. Qed.

(** C2, as the code has it.  When the identity the token carries is not
    the user of the path, DELETE /users/:id answers 403, and PUT
    /users/:id answers 403 if one of username, email, password is there
    and truthy and 400 if none is (the fields are validated first); in
    each case no store call is made, so no user row is read or changed.
    This holds for the identity the handler reads ([req.user.id]) and
    for the subject ([userId]) of a token the login route issued. *)
Theorem other_identity_cannot_mutate (show : jsval -> string)
    {S : Type} (st : store S) (s : S) (req : request) :
  let forbidden_or_invalid :=
    if no_user_field (body req)
    then reply 400
           "At least one field is required (username, email, or password)"
    else reply 403 "You can only update your own account" in
  (strict_eq (get "id" (user req)) (JStr (params_id req)) = false ->
     run st (users_delete show req) s
     = {| sent := reply 403 "You can only delete your own account";
          final := s; calls := [] |}
     /\ run st (users_put req) s
        = {| sent := forbidden_or_invalid; final := s; calls := [] |})
  /\ (forall uid uname issuedAt,
        user req = login_claims uid uname issuedAt ->
        uid <> params_id req ->
        run st (users_delete show req) s
        = {| sent := reply 403 "You can only delete your own account";
             final := s; calls := [] |}
        /\ run st (users_put req) s
           = {| sent := forbidden_or_invalid; final := s; calls := [] |}).
Proof.
  intros forbidden_or_invalid.
  assert (Hgen : strict_eq (get "id" (user req)) (JStr (params_id req)) = false ->
     run st (users_delete show req) s
     = {| sent := reply 403 "You can only delete your own account";
          final := s; calls := [] |}
     /\ run st (users_put req) s
        = {| sent := forbidden_or_invalid; final := s; calls := [] |}).
  { intros Hneq. split; [by apply users_delete_forbidden|].
    subst forbidden_or_invalid.
    destruct (no_user_field (body req)) eqn:E.
    - by apply users_put_no_field.
    - by apply users_put_forbidden. }
  split; [exact Hgen|].
  intros uid uname issuedAt Hclaims _. apply Hgen.
  rewrite Hclaims. apply login_claims_never_own.
Qed.

Section OwnAccount.

Context {J : Jwt} {C : JwtContract J}.
Variable secret : string.
Hypothesis secret_set : secret <> "".

(** C1, on the code.  A user logs in and, with the token just issued and
    still valid, sends PUT /users/:id for the own id with one of
    username, email, password there and truthy: the answer is 403, You
    can only update your own account, and the store is not called, so the
    user is not updated. *)
Theorem owner_update_is_forbidden {S : Type} (st : store S) (s s' : S)
    (now : Z) (req : request) (stored : obj) (uid uname : string) :
  truthy (get "username" (body req)) = true ->
  truthy (get "password" (body req)) = true ->
  st_findUnique st User "username" (get "username" (body req)) s
  = (Resolved (Some stored), s') ->
  get "id" stored = JStr uid ->
  get "username" stored = JStr uname ->
  strict_eq (get "password" (body req)) (get "password" stored) = true ->
  exists token,
    sent (run st (login_post (Some secret) now req) s)
    = {| status := 200; json := {[ "token" := JStr token ]} |}
    /\ forall (later : Z) (put : request) (s2 : S),
        authorization put = Some ("Bearer " +:+ token) ->
        params_id put = uid ->
        no_user_field (body put) = false ->
        later < (seconds now + 7 * 3600) * 1000 ->
        run st (protected (Some secret) users_put later put) s2
        = {| sent := reply 403 "You can only update your own account";
             final := s2; calls := [] |}.
Proof.
  intros Hu Hp Hfind Hid Hname Hpw.
  destruct (login_then_verify secret secret_set st s s' now req stored
              uid uname Hu Hp Hfind Hid Hname Hpw) as (token & Hrun & Hnext).
  exists token. split; [by rewrite Hrun|].
  intros later put s2 Hh Hput Hfield Hlt.
  rewrite (Hnext users_put later put Hh).
  apply (proj2 (expiry_in_milliseconds (seconds now) later)) in Hlt.
  rewrite Hlt. apply users_put_forbidden; [done|].
  apply login_claims_never_own.
Qed.

End OwnAccount.

(** ** The update and delete routes, resource by resource *)

Lemma no_field_users (b : obj) :
  negb (has_update_field Users b) = no_user_field b.
Proof.
  unfold has_update_field, no_user_field, falsy. simpl.
  by repeat destruct (truthy _).
Qed.

Lemma no_field_reviews (b : obj) :
  negb (has_update_field Reviews b)
  = falsy (get "rating" b) && falsy (get "comment" b)
    && falsy (get "userId" b) && falsy (get "propertyId" b).
Proof.
  unfold has_update_field, falsy. simpl. by repeat destruct (truthy _).
Qed.

Lemma no_field_bookings (b : obj) :
  negb (has_update_field Bookings b)
  = falsy (get "startDate" b) && falsy (get "endDate" b)
    && falsy (get "userId" b) && falsy (get "propertyId" b).
Proof.
  unfold has_update_field, falsy. simpl. by repeat destruct (truthy _).
Qed.

Lemma no_field_properties (b : obj) :
  negb (has_update_field Properties b)
  = falsy (get "title" b) && falsy (get "description" b)
    && falsy (get "location" b) && falsy (get "pricePerNight" b)
    && falsy (get "bedroomCount" b) && falsy (get "bathroomCount" b)
    && falsy (get "maxGuestCount" b) && falsy (get "rating" b)
    && falsy (get "hostId" b).
Proof.
  unfold has_update_field, falsy. simpl. by repeat destruct (truthy _).
Qed.

(** Every update route is: the 400 test, the ownership test (users), the
    lookup, the update. *)
Lemma put_of_shape (r : resource) (req : request) :
  put_of r req
  = if negb (has_update_field r (body req))
    then Ret (reply 400 (validation_message r))
    else if negb (owner_check r req)
         then Ret (reply 403 "You can only update your own account")
         else lookup_then_update r req.
Proof.
  destruct r.
  - rewrite no_field_users. reflexivity.
  - rewrite no_field_reviews. reflexivity.
  - rewrite no_field_bookings. reflexivity.
  - rewrite no_field_properties. reflexivity.
Qed.

(** Every delete route is: the ownership test (users), the delete. *)
Lemma delete_of_shape (show : jsval -> string) (r : resource) (req : request) :
  delete_of show r req
  = if negb (owner_check r req)
    then Ret (reply 403 "You can only delete your own account")
    else delete_then_report show r req.
Proof. by destruct r. Qed.



Lemma rows_set_rows (t : table) (m : gmap string obj) (d : db) :
  rows t (set_rows t m d) = m.
Proof. by destruct t. Qed.

Lemma known_error_P2025 : is_P2025 (known_error "P2025") = true.
Proof. reflexivity. Qed.

Lemma run_delete_rejected (show : jsval -> string) (r : resource)
    (req : request) {S : Type} (st : store S) (s s' : S) (err : obj) :
  owner_check r req = true ->
  st_delete st (table_of r) (JStr (params_id req)) s = (Rejected err, s') ->
  run st (delete_of show r req) s
  = {| sent := if is_P2025 err then reply 404 (not_found r) else server_error;
       final := s';
       calls := [CDelete (table_of r) (JStr (params_id req))] |}.
Proof.
  intros Hown Hdel. rewrite delete_of_shape, Hown. simpl. rewrite Hdel.
  by destruct (is_P2025 err).
Qed.

Lemma run_delete_resolved (show : jsval -> string) (r : resource)
    (req : request) {S : Type} (st : store S) (s s' : S) (row : obj) :
  owner_check r req = true ->
  st_delete st (table_of r) (JStr (params_id req)) s = (Resolved row, s') ->
  run st (delete_of show r req) s
  = {| sent := reply 200 (deleted_message show r row);
       final := s';
       calls := [CDelete (table_of r) (JStr (params_id req))] |}.
Proof.
  intros Hown Hdel. rewrite delete_of_shape, Hown. simpl. by rewrite Hdel.
Qed.

Lemma run_put_checked (r : resource) (req : request)
    {S : Type} (st : store S) (s : S) :
  has_update_field r (body req) = true ->
  owner_check r req = true ->
  run st (put_of r req) s = run st (lookup_then_update r req) s.
Proof. intros Hf Hown. by rewrite put_of_shape, Hf, Hown. Qed.

(** C3.  The code maps a row-not-found failure of the store to 404 in
    its delete handlers only.  For each of the four resources:
    - a delete (for a user, one the ownership check lets through) on which
      the store throws P2025 answers 404;
    - an update answers 404 when the lookup before it finds no row, but
      when the update call itself throws, with P2025 as with any other
      error, the answer is 500 Server error: the update handlers do not
      look at the code of the error, where the claim asks for 404;
    - over the store model, when a delete answers 200 a second delete of
      the same id answers 404, and the first answers 200 whenever the row
      is there and the engine lets the delete through. *)
Theorem not_found_at_mutation (show : jsval -> string) (r : resource)
    (req : request) :
  let id := JStr (params_id req) in
  let t := table_of r in
  (forall (S : Type) (st : store S) (s s' : S) (err : obj),
     owner_check r req = true ->
     st_delete st t id s = (Rejected err, s') ->
     is_P2025 err = true ->
     run st (delete_of show r req) s
     = {| sent := reply 404 (not_found r); final := s';
          calls := [CDelete t id] |})
  /\ (forall (S : Type) (st : store S) (s s' : S),
        has_update_field r (body req) = true ->
        owner_check r req = true ->
        st_findUnique st t "id" id s = (Resolved None, s') ->
        run st (put_of r req) s
        = {| sent := reply 404 (not_found r); final := s';
             calls := [CFindUnique t "id" id] |})
  /\ (forall (S : Type) (st : store S) (s s1 s2 : S) (row err : obj),
        has_update_field r (body req) = true ->
        owner_check r req = true ->
        st_findUnique st t "id" id s = (Resolved (Some row), s1) ->
        st_update st t id (update_data r (body req)) s1 = (Rejected err, s2) ->
        run st (put_of r req) s
        = {| sent := reply 500 "Server error"; final := s2;
             calls := [CFindUnique t "id" id;
                       CUpdate t id (update_data r (body req))] |})
  /\ (forall (constraint : db -> call -> option obj)
             (uuid : db -> table -> string) (d : db),
        owner_check r req = true ->
        let first := run (prisma constraint uuid) (delete_of show r req) d in
        let second :=
          run (prisma constraint uuid) (delete_of show r req) (final first) in
        (status (sent first) = 200 -> sent second = reply 404 (not_found r))
        /\ (forall row,
              rows t d !! params_id req = Some row ->
              constraint d (CDelete t id) = None ->
              sent first = reply 200 (deleted_message show r row)
              /\ sent second = reply 404 (not_found r))).
Proof.
  intros id t. subst id t. repeat apply conj.
  - intros S st s s' err Hown Hdel Hcode.
    rewrite (run_delete_rejected show r req st s s' err Hown Hdel).
    by rewrite Hcode.
  - intros S st s s' Hf Hown Hfind. rewrite run_put_checked by done.
    unfold lookup_then_update. cbn [run]. by rewrite Hfind.
  - intros S st s s1 s2 row err Hf Hown Hfind Hupd.
    rewrite run_put_checked by done.
    unfold lookup_then_update. cbn [run].
    rewrite Hfind. cbn [run]. by rewrite Hupd.
  - intros constraint uuid d Hown first second.
    set (t := table_of r) in *. set (i := params_id req) in *.
    assert (Hgone : forall row,
      prisma_delete constraint t (JStr i) d
      = (Resolved row, set_rows t (delete i (rows t d)) d) ->
      sent first = reply 200 (deleted_message show r row)
      /\ sent second = reply 404 (not_found r)).
    { intros row Hdel. subst first second.
      rewrite (run_delete_resolved show r req (prisma constraint uuid) d
                 _ row Hown Hdel). cbn [final sent].
      rewrite (run_delete_rejected show r req (prisma constraint uuid) _
                 (set_rows t (delete i (rows t d)) d)
                 (known_error "P2025") Hown).
      - by rewrite known_error_P2025.
      - cbn [st_delete prisma]. unfold prisma_delete. fold t i.
        by rewrite rows_set_rows, lookup_delete_eq. }
    assert (Hdel : prisma_delete constraint t (JStr i) d
      = match rows t d !! i with
        | None => (Rejected (known_error "P2025"), d)
        | Some row =>
            match constraint d (CDelete t (JStr i)) with
            | Some err => (Rejected err, d)
            | None => (Resolved row, set_rows t (delete i (rows t d)) d)
            end
        end) by reflexivity.
    split.
    + intros H200.
      destruct (rows t d !! i) as [row|] eqn:Hrow.
      * destruct (constraint d (CDelete t (JStr i))) as [err|] eqn:Hc.
        -- exfalso. subst first.
           rewrite (run_delete_rejected show r req (prisma constraint uuid)
                      d d err Hown Hdel) in H200.
           cbn [sent] in H200. by destruct (is_P2025 err).
        -- by apply (Hgone row).
      * exfalso. subst first.
        rewrite (run_delete_rejected show r req (prisma constraint uuid)
                   d d (known_error "P2025") Hown Hdel) in H200.
        by rewrite known_error_P2025 in H200.
    + intros row Hrow Hc. apply Hgone. by rewrite Hdel, Hrow, Hc.
Qed.



(** ** The create routes *)

Lemma review_fields_given (b : obj) :
  has_all_fields review_fields b = true ->
  falsy (get "rating" b) || falsy (get "comment" b)
  || falsy (get "userId" b) || falsy (get "propertyId" b) = false.
Proof.
  unfold has_all_fields, falsy. simpl. by repeat destruct (truthy _).
Qed.

Lemma booking_fields_given (b : obj) :
  has_all_fields booking_fields b = true ->
  falsy (get "startDate" b) || falsy (get "endDate" b)
  || falsy (get "userId" b) || falsy (get "propertyId" b) = false.
Proof.
  unfold has_all_fields, falsy. simpl. by repeat destruct (truthy _).
Qed.

Lemma property_fields_given (b : obj) :
  has_all_fields property_fields b = true ->
  falsy (get "title" b) || falsy (get "description" b)
  || falsy (get "location" b) || falsy (get "pricePerNight" b)
  || falsy (get "bedroomCount" b) || falsy (get "bathroomCount" b)
  || falsy (get "maxGuestCount" b) || falsy (get "rating" b)
  || falsy (get "hostId" b) = false.
Proof.
  unfold has_all_fields, falsy. simpl. by repeat destruct (truthy _).
Qed.

Lemma review_fields_missing (b : obj) :
  has_all_fields review_fields b = false ->
  falsy (get "rating" b) || falsy (get "comment" b)
  || falsy (get "userId" b) || falsy (get "propertyId" b) = true.
Proof.
  unfold has_all_fields, falsy. simpl. by repeat destruct (truthy _).
Qed.

Lemma booking_fields_missing (b : obj) :
  has_all_fields booking_fields b = false ->
  falsy (get "startDate" b) || falsy (get "endDate" b)
  || falsy (get "userId" b) || falsy (get "propertyId" b) = true.
Proof.
  unfold has_all_fields, falsy. simpl. by repeat destruct (truthy _).
Qed.

Lemma property_fields_missing (b : obj) :
  has_all_fields property_fields b = false ->
  falsy (get "title" b) || falsy (get "description" b)
  || falsy (get "location" b) || falsy (get "pricePerNight" b)
  || falsy (get "bedroomCount" b) || falsy (get "bathroomCount" b)
  || falsy (get "maxGuestCount" b) || falsy (get "rating" b)
  || falsy (get "hostId" b) = true.
Proof.
  unfold has_all_fields, falsy. simpl. by repeat destruct (truthy _).
Qed.

(** The user is looked up first: with no user row the answer is there
    after that one call. *)
Lemma reviews_post_no_user {S : Type} (st : store S) (s s' : S)
    (req : request) :
  has_all_fields review_fields (body req) = true ->
  st_findUnique st User "id" (get "userId" (body req)) s
  = (Resolved None, s') ->
  run st (reviews_post req) s
  = {| sent := reply 404 "User not found"; final := s';
       calls := [user_lookup (body req)] |}.
Proof.
  intros Hf Hfind. unfold reviews_post.
  rewrite (review_fields_given _ Hf). cbn [run]. by rewrite Hfind.
Qed.

Lemma bookings_post_no_user {S : Type} (st : store S) (s s' : S)
    (req : request) :
  has_all_fields booking_fields (body req) = true ->
  st_findUnique st User "id" (get "userId" (body req)) s
  = (Resolved None, s') ->
  run st (bookings_post req) s
  = {| sent := reply 404 "User not found"; final := s';
       calls := [user_lookup (body req)] |}.
Proof.
  intros Hf Hfind. unfold bookings_post.
  rewrite (booking_fields_given _ Hf). cbn [run]. by rewrite Hfind.
Qed.

Lemma reviews_post_no_property {S : Type} (st : store S) (s s1 s2 : S)
    (req : request) (row : obj) :
  has_all_fields review_fields (body req) = true ->
  st_findUnique st User "id" (get "userId" (body req)) s
  = (Resolved (Some row), s1) ->
  st_findUnique st Property "id" (get "propertyId" (body req)) s1
  = (Resolved None, s2) ->
  run st (reviews_post req) s
  = {| sent := reply 404 "Property not found"; final := s2;
       calls := [user_lookup (body req); property_lookup (body req)] |}.
Proof.
  intros Hf Hu Hp. unfold reviews_post.
  rewrite (review_fields_given _ Hf). cbn [run]. rewrite Hu. cbn [run].
  by rewrite Hp.
Qed.

Lemma bookings_post_no_property {S : Type} (st : store S) (s s1 s2 : S)
    (req : request) (row : obj) :
  has_all_fields booking_fields (body req) = true ->
  st_findUnique st User "id" (get "userId" (body req)) s
  = (Resolved (Some row), s1) ->
  st_findUnique st Property "id" (get "propertyId" (body req)) s1
  = (Resolved None, s2) ->
  run st (bookings_post req) s
  = {| sent := reply 404 "Property not found"; final := s2;
       calls := [user_lookup (body req); property_lookup (body req)] |}.
Proof.
  intros Hf Hu Hp. unfold bookings_post.
  rewrite (booking_fields_given _ Hf). cbn [run]. rewrite Hu. cbn [run].
  by rewrite Hp.
Qed.

Lemma properties_post_no_host {S : Type} (st : store S) (s s' : S)
    (req : request) :
  has_all_fields property_fields (body req) = true ->
  st_findUnique st Host "id" (get "hostId" (body req)) s
  = (Resolved None, s') ->
  run st (properties_post req) s
  = {| sent := reply 404 "Host not found"; final := s';
       calls := [host_lookup (body req)] |}.
Proof.
  intros Hf Hfind. unfold properties_post.
  rewrite (property_fields_given _ Hf). cbn [run]. by rewrite Hfind.
Qed.

(** A lookup leaves the tables of the store model as they are. *)
Lemma prisma_findUnique_reads (t : table) (field : string) (v : jsval)
    (d : db) :
  snd (prisma_findUnique t field v d) = d.
Proof.
  unfold prisma_findUnique. destruct v; try done.
  by destruct (String.eqb field "id").
Qed.

Lemma create_404_is_read_only {S : Type} (st : store S) (s : S)
    (req : request) :
  (status (sent (run st (reviews_post req) s)) = 404 ->
     read_only (calls (run st (reviews_post req) s)) = true)
  /\ (status (sent (run st (bookings_post req) s)) = 404 ->
        read_only (calls (run st (bookings_post req) s)) = true)
  /\ (status (sent (run st (properties_post req) s)) = 404 ->
        read_only (calls (run st (properties_post req) s)) = true).
Proof.
  repeat apply conj.
  - unfold reviews_post. destruct (_ || _); cbn [run]; by_store_answers.
  - unfold bookings_post. destruct (_ || _); cbn [run]; by_store_answers.
  - unfold properties_post. destruct (_ || _); cbn [run]; by_store_answers.
Qed.

(** C5, as the code has it.  A create request for a review, booking or
    property whose payload has every required field there and truthy, and
    whose referenced user (or, the user found, property) or host has no
    row in the store, is answered 404 with the message that names what is
    missing; the calls made are the lookups and nothing else, so the
    create is not issued.  More generally a create route that answers 404
    has made no mutating call.  A payload with a required field missing or
    falsy is answered 400 before any lookup: the store is not called. *)
Theorem missing_reference_is_404 {S : Type} (st : store S) (s : S)
    (req : request) :
  let b := body req in
  (has_all_fields review_fields b = true ->
     (forall s',
        st_findUnique st User "id" (get "userId" b) s = (Resolved None, s') ->
        run st (reviews_post req) s
        = {| sent := reply 404 "User not found"; final := s';
             calls := [user_lookup b] |})
     /\ (forall row s1 s2,
           st_findUnique st User "id" (get "userId" b) s
           = (Resolved (Some row), s1) ->
           st_findUnique st Property "id" (get "propertyId" b) s1
           = (Resolved None, s2) ->
           run st (reviews_post req) s
           = {| sent := reply 404 "Property not found"; final := s2;
                calls := [user_lookup b; property_lookup b] |}))
  /\ (has_all_fields booking_fields b = true ->
        (forall s',
           st_findUnique st User "id" (get "userId" b) s
           = (Resolved None, s') ->
           run st (bookings_post req) s
           = {| sent := reply 404 "User not found"; final := s';
                calls := [user_lookup b] |})
        /\ (forall row s1 s2,
              st_findUnique st User "id" (get "userId" b) s
              = (Resolved (Some row), s1) ->
              st_findUnique st Property "id" (get "propertyId" b) s1
              = (Resolved None, s2) ->
              run st (bookings_post req) s
              = {| sent := reply 404 "Property not found"; final := s2;
                   calls := [user_lookup b; property_lookup b] |}))
  /\ (has_all_fields property_fields b = true ->
        forall s',
          st_findUnique st Host "id" (get "hostId" b) s
          = (Resolved None, s') ->
          run st (properties_post req) s
          = {| sent := reply 404 "Host not found"; final := s';
               calls := [host_lookup b] |})
  /\ (forall handler,
        In handler [reviews_post; bookings_post; properties_post] ->
        status (sent (run st (handler req) s)) = 404 ->
        read_only (calls (run st (handler req) s)) = true)
  /\ (has_all_fields review_fields b = false ->
        run st (reviews_post req) s
        = {| sent :=
               reply 400
                 "Rating, comment, user ID, and property ID are required";
             final := s; calls := [] |})
  /\ (has_all_fields booking_fields b = false ->
        run st (bookings_post req) s
        = {| sent :=
               reply 400
                 "Start date, end date, user ID, and property ID are required";
             final := s; calls := [] |})
  /\ (has_all_fields property_fields b = false ->
        run st (properties_post req) s
        = {| sent := reply 400 "All fields are required";
             final := s; calls := [] |}).
Proof.
  intros b. subst b. repeat apply conj.
  - intros Hf. split.
    + intros s' Hu. by apply reviews_post_no_user.
    + intros row s1 s2 Hu Hp. by apply (reviews_post_no_property _ _ s1 _ _ row).
  - intros Hf. split.
    + intros s' Hu. by apply bookings_post_no_user.
    + intros row s1 s2 Hu Hp.
      by apply (bookings_post_no_property _ _ s1 _ _ row).
  - intros Hf s' Hh. by apply properties_post_no_host.
  - destruct (create_404_is_read_only st s req) as (Hr & Hb & Hp).
    intros handler [<-|[<-|[<-|[]]]]; assumption.
  - intros Hf. unfold reviews_post. by rewrite (review_fields_missing _ Hf).
  - intros Hf. unfold bookings_post. by rewrite (booking_fields_missing _ Hf).
  - intros Hf. unfold properties_post.
    by rewrite (property_fields_missing _ Hf).
Qed.

(** C9, as the code has it.  A review or a booking creation looks the
    user up before the property.  So, for a payload with every required
    field there and truthy, when the user has no row the answer is 404
    with the message User not found after that one lookup: the property is
    not looked up, whether it has a row or not.  Over the store model,
    this is the answer when neither id has a row, and the tables are as
    before. *)
Theorem user_is_checked_before_property (req : request) :
  let b := body req in
  (forall (S : Type) (st : store S) (s s' : S),
     st_findUnique st User "id" (get "userId" b) s = (Resolved None, s') ->
     (has_all_fields review_fields b = true ->
        run st (reviews_post req) s
        = {| sent := reply 404 "User not found"; final := s';
             calls := [CFindUnique User "id" (get "userId" b)] |})
     /\ (has_all_fields booking_fields b = true ->
           run st (bookings_post req) s
           = {| sent := reply 404 "User not found"; final := s';
                calls := [CFindUnique User "id" (get "userId" b)] |}))
  /\ (forall (constraint : db -> call -> option obj)
             (uuid : db -> table -> string) (d : db) (uid pid : string),
        get "userId" b = JStr uid ->
        get "propertyId" b = JStr pid ->
        users d !! uid = None ->
        properties d !! pid = None ->
        (has_all_fields review_fields b = true ->
           run (prisma constraint uuid) (reviews_post req) d
           = {| sent := reply 404 "User not found"; final := d;
                calls := [CFindUnique User "id" (JStr uid)] |})
        /\ (has_all_fields booking_fields b = true ->
              run (prisma constraint uuid) (bookings_post req) d
              = {| sent := reply 404 "User not found"; final := d;
                   calls := [CFindUnique User "id" (JStr uid)] |})).
Proof.
  intros b. subst b. split.
  - intros S st s s' Hu. split; intros Hf.
    + by apply reviews_post_no_user.
    + by apply bookings_post_no_user.
  - intros constraint uuid d uid pid Hu Hp Hnu Hnp.
    assert (Hfind : st_findUnique (prisma constraint uuid) User "id"
                      (get "userId" (body req)) d = (Resolved None, d)).
    { rewrite Hu. simpl. unfold prisma_findUnique. simpl. by rewrite Hnu. }
    split; intros Hf.
    + rewrite (reviews_post_no_user _ d d req Hf Hfind).
      unfold user_lookup. by rewrite Hu.
    + rewrite (bookings_post_no_user _ d d req Hf Hfind).
      unfold user_lookup. by rewrite Hu.
Qed.

(** * The properties on the sample data *)

Lemma sample_secret_set : sample_secret <> "".
Proof. discriminate. Defined.

(** A request without header, one with a token that is not one, and
    jdoe's token seven hours after it was issued. *)
Lemma unauthorized_requests_stop_at_the_middleware_witness :
  sample_route users_put 1000 (incoming None "42" new_email)
  = {| sent := missing_credential; final := sample_db; calls := [] |}
  /\ sample_route users_put 1000 (incoming (Some "Bearer ") "42" new_email)
     = {| sent := missing_credential; final := sample_db; calls := [] |}
  /\ sample_route users_put 1000 (incoming (bearer "garbage") "42" new_email)
     = {| sent := invalid_token; final := sample_db; calls := [] |}
  /\ sample_route users_put (7 * 3600 * 1000)
       (incoming (bearer jdoe_token) "42" new_email)
     = {| sent := invalid_token; final := sample_db; calls := [] |}.
Proof.
  repeat apply conj.
  - apply (unauthorized_requests_stop_at_the_middleware (J := plain_jwt)
             (Some sample_secret) sample_store sample_db users_put 1000
             (incoming None "42" new_email)).
    reflexivity.
  - apply (unauthorized_requests_stop_at_the_middleware (J := plain_jwt)
             (Some sample_secret) sample_store sample_db users_put 1000
             (incoming (Some "Bearer ") "42" new_email)).
    reflexivity.
  - apply (unauthorized_requests_stop_at_the_middleware (J := plain_jwt)
             (Some sample_secret) sample_store sample_db users_put 1000
             (incoming (bearer "garbage") "42" new_email)) with "garbage";
      reflexivity.
  - apply (unauthorized_requests_stop_at_the_middleware (J := plain_jwt)
             (Some sample_secret) sample_store sample_db users_put
             (7 * 3600 * 1000)
             (incoming (bearer jdoe_token) "42" new_email)) with jdoe_token;
      reflexivity.
Defined.

(** jdoe's token sent as it is, without the Bearer prefix. *)
Lemma header_without_space_is_missing_credential_witness :
  sample_route users_put 1000 (incoming (Some jdoe_token) "42" new_email)
  = {| sent := reply 401 "No token provided, authorization denied";
       final := sample_db; calls := [] |}.
Proof.
  apply (header_without_space_is_missing_credential (J := plain_jwt)
           (Some sample_secret) sample_store sample_db users_put 1000
           (incoming (Some jdoe_token) "42" new_email) jdoe_token).
  - reflexivity.
  - reflexivity.
Defined.

(** The scenario of the specification: jdoe, whose stored password is
    secret, logs in with it, with another password and with the same one
    in capitals; a stranger logs in; the password is left out. *)
Lemma login_outcomes_witness :
  sent (run sample_store
          (login_post (J := plain_jwt) (Some sample_secret) 0
             (login_request "jdoe" "secret")) sample_db)
  = {| status := 200; json := {[ "token" := JStr jdoe_token ]} |}
  /\ sent (run sample_store
             (login_post (J := plain_jwt) (Some sample_secret) 0
                (login_request "jdoe" "wrong")) sample_db)
     = reply 401 "Invalid credentials"
  /\ sent (run sample_store
             (login_post (J := plain_jwt) (Some sample_secret) 0
                (login_request "jdoe" "SECRET")) sample_db)
     = reply 401 "Invalid credentials"
  /\ sent (run sample_store
             (login_post (J := plain_jwt) (Some sample_secret) 0
                (login_request "nobody" "secret")) sample_db)
     = reply 401 "Invalid credentials"
  /\ sent (run sample_store
             (login_post (J := plain_jwt) (Some sample_secret) 0
                (login_request "jdoe" "")) sample_db)
     = reply 400 "Username and password are required".
Proof.
  repeat apply conj.
  - destruct (login_outcomes (J := plain_jwt) (Some sample_secret)
                sample_store sample_db 0 (login_request "jdoe" "secret"))
      as (_ & _ & _ & H & _).
    rewrite (H ltac:(reflexivity) ltac:(reflexivity)
               jdoe sample_db jdoe_token
               ltac:(reflexivity) ltac:(reflexivity) ltac:(reflexivity)).
    reflexivity.
  - destruct (login_outcomes (J := plain_jwt) (Some sample_secret)
                sample_store sample_db 0 (login_request "jdoe" "wrong"))
      as (_ & _ & H & _).
    rewrite (H ltac:(reflexivity) ltac:(reflexivity) jdoe sample_db
               ltac:(reflexivity) ltac:(reflexivity)).
    reflexivity.
  - destruct (login_outcomes (J := plain_jwt) (Some sample_secret)
                sample_store sample_db 0 (login_request "jdoe" "SECRET"))
      as (_ & _ & H & _).
    rewrite (H ltac:(reflexivity) ltac:(reflexivity) jdoe sample_db
               ltac:(reflexivity) ltac:(reflexivity)).
    reflexivity.
  - destruct (login_outcomes (J := plain_jwt) (Some sample_secret)
                sample_store sample_db 0 (login_request "nobody" "secret"))
      as (_ & H & _).
    rewrite (H ltac:(reflexivity) ltac:(reflexivity) sample_db
               ltac:(reflexivity)).
    reflexivity.
  - destruct (login_outcomes (J := plain_jwt) (Some sample_secret)
                sample_store sample_db 0 (login_request "jdoe" ""))
      as (H & _).
    rewrite (H ltac:(right; reflexivity)). reflexivity.
Defined.

(** jdoe logs in at instant 0. *)
Lemma login_token_valid_for_seven_hours_witness :
  exists token,
    sent (run sample_store
            (login_post (J := plain_jwt) (Some sample_secret) 0
               (login_request "jdoe" "secret")) sample_db)
    = {| status := 200; json := {[ "token" := JStr token ]} |}
    /\ forall (handler : request -> prog) (later : Z) (req' : request),
        authorization req' = Some ("Bearer " +:+ token) ->
        (later < (seconds 0 + 7 * 3600) * 1000 ->
           verifyToken (J := plain_jwt) (Some sample_secret) later req'
           = Next (set_user req' (login_claims "42" "jdoe" (seconds 0))))
        /\ ((seconds 0 + 7 * 3600) * 1000 <= later ->
           verifyToken (J := plain_jwt) (Some sample_secret) later req'
           = Answered invalid_token
           /\ protected (J := plain_jwt) (Some sample_secret) handler later req'
              = Ret invalid_token).
Proof.
  exact (login_token_valid_for_seven_hours (C := plain_jwt_contract)
           sample_secret
           sample_secret_set sample_store sample_db sample_db 0
           (login_request "jdoe" "secret") jdoe "42" "jdoe"
           ltac:(reflexivity) ltac:(reflexivity) ltac:(reflexivity)
           ltac:(reflexivity) ltac:(reflexivity) ltac:(reflexivity)).
Defined.

(** jdoe logs in at instant 0 and updates the own account. *)
Lemma owner_update_is_forbidden_witness :
  exists token,
    sent (run sample_store
            (login_post (J := plain_jwt) (Some sample_secret) 0
               (login_request "jdoe" "secret")) sample_db)
    = {| status := 200; json := {[ "token" := JStr token ]} |}
    /\ forall (later : Z) (put : request) (s2 : db),
        authorization put = Some ("Bearer " +:+ token) ->
        params_id put = "42" ->
        no_user_field (body put) = false ->
        later < (seconds 0 + 7 * 3600) * 1000 ->
        run sample_store
            (protected (J := plain_jwt) (Some sample_secret) users_put later put)
            s2
        = {| sent := reply 403 "You can only update your own account";
             final := s2; calls := [] |}.
Proof.
  exact (owner_update_is_forbidden (C := plain_jwt_contract) sample_secret
           sample_secret_set sample_store sample_db sample_db 0
           (login_request "jdoe" "secret") jdoe "42" "jdoe"
           ltac:(reflexivity) ltac:(reflexivity) ltac:(reflexivity)
           ltac:(reflexivity) ltac:(reflexivity) ltac:(reflexivity)).
Defined.

(** The failing input of C1, run: PUT /users/42 with jdoe's token, one
    second after login, and a new email. *)
Example jdoe_cannot_update_own_account :
  get "userId" (login_claims "42" "jdoe" 0) = JStr (params_id (incoming (bearer jdoe_token) "42" new_email))
  /\ sample_route users_put 1000 (incoming (bearer jdoe_token) "42" new_email)
     = {| sent := reply 403 "You can only update your own account";
          final := sample_db; calls := [] |}.
Proof. split; reflexivity. Qed.

(** PUT /users/42 with asmith's token (subject 7) and an empty payload:
    400, not 403. *)
Lemma put_without_field_by_another_identity :
  verifyToken (J := plain_jwt) (Some sample_secret) 1000
    (incoming (bearer asmith_token) "42" ∅)
  = Next (set_user (incoming (bearer asmith_token) "42" ∅)
            (login_claims "7" "asmith" 0))
  /\ sent (sample_route users_put 1000 (incoming (bearer asmith_token) "42" ∅))
     = reply 400 "At least one field is required (username, email, or password)"
  /\ status (sent (sample_route users_put 1000
                     (incoming (bearer asmith_token) "42" ∅))) <> 403.
Proof.
  split; [reflexivity|]. split; [reflexivity|].
  intros H. discriminate H.
Qed.

(** asmith (subject 7) on the account 42: a delete, an update with a new
    email, an update with nothing. *)
Lemma other_identity_cannot_mutate_witness :
  let req b := set_user (incoming (bearer asmith_token) "42" b)
                 (login_claims "7" "asmith" 0) in
  run sample_store (users_delete sample_show (req ∅)) sample_db
  = {| sent := reply 403 "You can only delete your own account";
       final := sample_db; calls := [] |}
  /\ run sample_store (users_put (req new_email)) sample_db
     = {| sent := reply 403 "You can only update your own account";
          final := sample_db; calls := [] |}
  /\ run sample_store (users_put (req ∅)) sample_db
     = {| sent :=
            reply 400
              "At least one field is required (username, email, or password)";
          final := sample_db; calls := [] |}.
Proof.
  intros req.
  destruct (other_identity_cannot_mutate sample_show sample_store sample_db
              (req ∅)) as [_ Hnone].
  destruct (other_identity_cannot_mutate sample_show sample_store sample_db
              (req new_email)) as [_ Hmail].
  destruct (Hnone "7" "asmith" 0 eq_refl) as [Hdel Hput0]; [discriminate|].
  destruct (Hmail "7" "asmith" 0 eq_refl) as [_ Hput1]; [discriminate|].
  split; [exact Hdel|]. split; [exact Hput1|exact Hput0].
Defined.

(** PUT /reviews/r1 while another request deletes the review between the
    lookup and the update: the update throws P2025 and the answer is 500,
    not 404. *)
Lemma update_of_vanished_row_is_500 :
  (exists s1 s2 row err,
     st_findUnique (racing no_constraint sample_uuid) Review "id" (JStr "r1")
       sample_db = (Resolved (Some row), s1)
     /\ st_update (racing no_constraint sample_uuid) Review (JStr "r1")
          (update_data Reviews new_rating) s1 = (Rejected err, s2)
     /\ is_P2025 err = true)
  /\ sent (run (racing no_constraint sample_uuid)
             (reviews_put (incoming None "r1" new_rating)) sample_db)
     = reply 500 "Server error"
  /\ status (sent (run (racing no_constraint sample_uuid)
                     (reviews_put (incoming None "r1" new_rating)) sample_db))
     <> 404.
Proof.
  split; [|split; [reflexivity|intros H; discriminate H]].
  exists (set_rows Review (delete "r1" (rows Review sample_db)) sample_db),
         (set_rows Review (delete "r1" (rows Review sample_db)) sample_db),
         sample_review, (known_error "P2025").
  split; [reflexivity|]. split; reflexivity.
Qed.

(** A delete of a review that is not there; an update of a review that
    vanishes before the update; the review r1 deleted twice. *)
Lemma not_found_at_mutation_witness :
  run sample_store (reviews_delete sample_show (incoming None "zz" ∅))
      sample_db
  = {| sent := reply 404 "Review not found"; final := sample_db;
       calls := [CDelete Review (JStr "zz")] |}
  /\ sent (run (racing no_constraint sample_uuid)
             (reviews_put (incoming None "r1" new_rating)) sample_db)
     = reply 500 "Server error"
  /\ sent (run sample_store (reviews_delete sample_show (incoming None "r1" ∅))
             sample_db)
     = reply 200 "Review with ID r1 deleted successfully"
  /\ sent (run sample_store (reviews_delete sample_show (incoming None "r1" ∅))
             (final (run sample_store
                       (reviews_delete sample_show (incoming None "r1" ∅))
                       sample_db)))
     = reply 404 "Review not found".
Proof.
  destruct (not_found_at_mutation sample_show Reviews (incoming None "zz" ∅))
    as (Hdel & _).
  destruct (not_found_at_mutation sample_show Reviews
              (incoming None "r1" new_rating)) as (_ & _ & Hupd & _).
  destruct (not_found_at_mutation sample_show Reviews (incoming None "r1" ∅))
    as (_ & _ & _ & Htwice).
  split.
  { exact (Hdel db sample_store sample_db sample_db (known_error "P2025")
             eq_refl eq_refl eq_refl). }
  split.
  { exact (f_equal sent
             (Hupd db (racing no_constraint sample_uuid) sample_db
                (set_rows Review (delete "r1" (rows Review sample_db)) sample_db)
                (set_rows Review (delete "r1" (rows Review sample_db)) sample_db)
                sample_review (known_error "P2025")
                eq_refl eq_refl eq_refl eq_refl)). }
  destruct (Htwice no_constraint sample_uuid sample_db eq_refl) as [_ H].
  exact (H sample_review eq_refl eq_refl).
Defined.

(** POST /reviews by jdoe with the ids of a user that does not exist and
    of a property, and neither rating nor comment: 400, not 404. *)
Lemma review_without_rating_for_unknown_user_is_400 :
  users sample_db !! "ghost" = None
  /\ sent (sample_route reviews_post 1000
             (incoming (bearer jdoe_token) "" (references_only "ghost" "p1")))
     = reply 400 "Rating, comment, user ID, and property ID are required"
  /\ status (sent (sample_route reviews_post 1000
                     (incoming (bearer jdoe_token) ""
                        (references_only "ghost" "p1")))) <> 404.
Proof.
  split; [reflexivity|]. split; [reflexivity|]. intros H. discriminate H.
Qed.

(** A review and a booking for a user that does not exist, for a
    property that does not exist, and a property for a host that does not
    exist. *)
Lemma missing_reference_is_404_witness :
  run sample_store (reviews_post (incoming None "" (review_of "ghost" "p1")))
      sample_db
  = {| sent := reply 404 "User not found"; final := sample_db;
       calls := [CFindUnique User "id" (JStr "ghost")] |}
  /\ run sample_store
         (reviews_post (incoming None "" (review_of "42" "nowhere"))) sample_db
     = {| sent := reply 404 "Property not found"; final := sample_db;
          calls := [CFindUnique User "id" (JStr "42");
                    CFindUnique Property "id" (JStr "nowhere")] |}
  /\ run sample_store
         (bookings_post (incoming None "" (booking_of "ghost" "p1"))) sample_db
     = {| sent := reply 404 "User not found"; final := sample_db;
          calls := [CFindUnique User "id" (JStr "ghost")] |}
  /\ run sample_store
         (bookings_post (incoming None "" (booking_of "42" "nowhere")))
         sample_db
     = {| sent := reply 404 "Property not found"; final := sample_db;
          calls := [CFindUnique User "id" (JStr "42");
                    CFindUnique Property "id" (JStr "nowhere")] |}
  /\ run sample_store
         (properties_post (incoming None "" (property_of "nohost"))) sample_db
     = {| sent := reply 404 "Host not found"; final := sample_db;
          calls := [CFindUnique Host "id" (JStr "nohost")] |}
  /\ run sample_store
         (reviews_post (incoming None "" (references_only "ghost" "p1")))
         sample_db
     = {| sent :=
            reply 400 "Rating, comment, user ID, and property ID are required";
          final := sample_db; calls := [] |}.
Proof.
  destruct (missing_reference_is_404 sample_store sample_db
              (incoming None "" (references_only "ghost" "p1")))
    as (_ & _ & _ & _ & H400 & _).
  destruct (missing_reference_is_404 sample_store sample_db
              (incoming None "" (review_of "ghost" "p1")))
    as (Hr1 & _).
  destruct (missing_reference_is_404 sample_store sample_db
              (incoming None "" (review_of "42" "nowhere")))
    as (Hr2 & _).
  destruct (missing_reference_is_404 sample_store sample_db
              (incoming None "" (booking_of "ghost" "p1")))
    as (_ & Hb1 & _).
  destruct (missing_reference_is_404 sample_store sample_db
              (incoming None "" (booking_of "42" "nowhere")))
    as (_ & Hb2 & _).
  destruct (missing_reference_is_404 sample_store sample_db
              (incoming None "" (property_of "nohost")))
    as (_ & _ & Hp & _).
  split; [exact (proj1 (Hr1 eq_refl) sample_db eq_refl)|].
  split; [exact (proj2 (Hr2 eq_refl) jdoe sample_db sample_db eq_refl eq_refl)|].
  split; [exact (proj1 (Hb1 eq_refl) sample_db eq_refl)|].
  split; [exact (proj2 (Hb2 eq_refl) jdoe sample_db sample_db eq_refl eq_refl)|].
  split; [exact (Hp eq_refl sample_db eq_refl)|].
  exact (H400 ltac:(reflexivity)).
Defined.

(** POST /bookings by jdoe with the ids of a user and of a property that
    do not exist, and no dates: 400, not 404. *)
Lemma booking_without_dates_for_unknown_ids_is_400 :
  users sample_db !! "ghost" = None
  /\ properties sample_db !! "nowhere" = None
  /\ sent (sample_route bookings_post 1000
             (incoming (bearer jdoe_token) ""
                (references_only "ghost" "nowhere")))
     = reply 400 "Start date, end date, user ID, and property ID are required"
  /\ status (sent (sample_route bookings_post 1000
                     (incoming (bearer jdoe_token) ""
                        (references_only "ghost" "nowhere")))) <> 404.
Proof.
  split; [reflexivity|]. split; [reflexivity|]. split; [reflexivity|].
  intros H. discriminate H.
Qed.

(** A review and a booking whose user and property both do not exist. *)
Lemma user_is_checked_before_property_witness :
  run sample_store
      (reviews_post (incoming None "" (review_of "ghost" "nowhere"))) sample_db
  = {| sent := reply 404 "User not found"; final := sample_db;
       calls := [CFindUnique User "id" (JStr "ghost")] |}
  /\ run sample_store
         (bookings_post (incoming None "" (booking_of "ghost" "nowhere")))
         sample_db
     = {| sent := reply 404 "User not found"; final := sample_db;
          calls := [CFindUnique User "id" (JStr "ghost")] |}.
Proof.
  destruct (user_is_checked_before_property
              (incoming None "" (review_of "ghost" "nowhere"))) as [_ Hr].
  destruct (user_is_checked_before_property
              (incoming None "" (booking_of "ghost" "nowhere"))) as [_ Hb].
  split.
  - exact (proj1 (Hr no_constraint sample_uuid sample_db "ghost" "nowhere"
                    eq_refl eq_refl eq_refl eq_refl) eq_refl).
  - exact (proj2 (Hb no_constraint sample_uuid sample_db "ghost" "nowhere"
                    eq_refl eq_refl eq_refl eq_refl) eq_refl).
Defined.


(** * Further properties of the routes *)

(** ** The token of a request *)

Lemma split_at_space (a b : string) :
  no_space a -> split " " (a +:+ String " " b) = a :: split " " b.
Proof.
  unfold no_space. induction a as [|c a IH]; intros Ha.
  - reflexivity.
  - simpl in Ha. apply orb_false_iff in Ha as [Hc Ha].
    change (String c a +:+ String " " b) with (String c (a +:+ String " " b)).
    simpl. by rewrite Hc, (IH Ha).
Qed.

Lemma second_segment (scheme token rest : string) :
  no_space scheme -> no_space token ->
  rest = "" \/ (exists r, rest = String " " r) ->
  nth_error (split " " (scheme +:+ String " " (token +:+ rest))) 1
  = Some token.
Proof.
  intros Hs Ht Hrest. rewrite (split_at_space _ _ Hs). simpl.
  destruct Hrest as [->|[r ->]].
  - replace (token +:+ "") with token.
    + by rewrite (split_no_space _ Ht).
    + clear. induction token as [|c t IH]; [done|].
      change (String c t +:+ "") with (String c (t +:+ "")). by rewrite <- IH.
  - by rewrite (split_at_space _ _ Ht).
Qed.

Section Token.

Context {J : Jwt}.
Variable JWT_SECRET : option string.

(** X1.  The token the middleware verifies is the text between the first
    and the second space of the Authorization header, whatever stands
    before the first space (the word Bearer is not asked for) and after
    the second.  When that text is empty the answer is the 401 of a
    missing token; otherwise the request goes on or is answered 401 as
    [jwt.verify] decides on that text alone. *)
Theorem token_is_second_segment (now : Z) (req : request)
    (scheme token rest : string) :
  authorization req = Some (scheme +:+ String " " (token +:+ rest)) ->
  no_space scheme ->
  no_space token ->
  rest = "" \/ (exists r, rest = String " " r) ->
  verifyToken JWT_SECRET now req
  = if String.eqb token "" then Answered missing_credential
    else match jwt_verify token JWT_SECRET now with
         | Some decoded => Next (set_user req decoded)
         | None => Answered invalid_token
         end.
Proof.
  intros Hh Hs Ht Hrest. unfold verifyToken, bearer_token.
  rewrite Hh, (second_segment _ _ _ Hs Ht Hrest). simpl.
  by destruct (String.eqb token "").
Qed.

End Token.

(** ** What every route with a token does, whatever the store answers *)

Ltac unfold_handler :=
  match goal with
  | |- context [users_put ?r] =>
      change (users_put r) with (put_of Users r)
  | |- context [reviews_put ?r] =>
      change (reviews_put r) with (put_of Reviews r)
  | |- context [bookings_put ?r] =>
      change (bookings_put r) with (put_of Bookings r)
  | |- context [properties_put ?r] =>
      change (properties_put r) with (put_of Properties r)
  | |- context [users_delete ?f ?r] =>
      change (users_delete f r) with (delete_of f Users r)
  | |- context [reviews_delete ?f ?r] =>
      change (reviews_delete f r) with (delete_of f Reviews r)
  | |- context [bookings_delete ?f ?r] =>
      change (bookings_delete f r) with (delete_of f Bookings r)
  | |- context [properties_delete ?f ?r] =>
      change (properties_delete f r) with (delete_of f Properties r)
  | |- context [reviews_post ?r] => unfold reviews_post
  | |- context [bookings_post ?r] => unfold bookings_post
  | |- context [properties_post ?r] => unfold properties_post
  | |- context [login_post ?k ?n ?r] => unfold login_post
  end;
  try rewrite put_of_shape; try rewrite delete_of_shape;
  unfold lookup_then_update, delete_then_report.

(** Every path of a handler: its tests and what the store answers. *)
Ltac every_path :=
  cbn [run after sent final calls status reply];
  repeat (match goal with
          | |- context [if negb ?b then _ else _] =>
              destruct b; cbn [negb]; cbv iota
          | |- context [if ?a || ?b then _ else _] =>
              destruct (a || b); cbv iota
          | |- context [if strict_neq ?a ?b then _ else _] =>
              destruct (strict_neq a b); cbv iota
          | |- context [match jwt_sign ?p ?k ?l ?n with _ => _ end] =>
              destruct (jwt_sign p k l n)
          | |- context [if is_P2025 ?e then _ else _] =>
              destruct (is_P2025 e)
          | |- context [st_findUnique ?st ?t ?f ?v ?s] =>
              destruct (st_findUnique st t f v s) as [[[?|]|?] ?]
          | |- context [st_create ?st ?t ?d ?s] =>
              destruct (st_create st t d s) as [[?|?] ?]
          | |- context [st_update ?st ?t ?i ?d ?s] =>
              destruct (st_update st t i d s) as [[?|?] ?]
          | |- context [st_delete ?st ?t ?i ?s] =>
              destruct (st_delete st t i s) as [[?|?] ?]
          end;
          cbn [run after sent final calls status reply]).

Section AnyStore.

Context {J : Jwt}.
Variable JWT_SECRET : option string.
Variable show : jsval -> string.

(** X3.  A request to the login route, to POST /users or to one of the
    eleven other routes that create, update or delete (a user, a review,
    a booking, a property) makes its store calls in this order: reads,
    then at most one mutation, which is the last call.  So no check
    follows a mutation, and no request changes the store twice. *)
Theorem mutation_is_the_last_call {S : Type} (st : store S) (rd : reads S)
    (s : S) (now : Z) (req : request) :
  (forall handler,
     In handler (login_post JWT_SECRET now :: mutating_handlers show) ->
     reads_before_last (calls (run st (handler req) s)) = true)
  /\ forallb (fun q => negb (is_write q))
       (removelast (queries (run_route st rd (users_post req) s))) = true.
Proof.
  split.
  - intros handler Hin. cbn [In mutating_handlers] in Hin.
    repeat destruct Hin as [<-|Hin]; try contradiction;
      unfold_handler; every_path; reflexivity.
  - unfold users_post. destruct (_ || _); [reflexivity|]. cbn [run_route].
    destruct (rd_findFirst rd User _ s) as [[[found|]|err] s1];
      cbn [run_route asked queries run calls fmap list_fmap];
      try reflexivity.
    destruct (st_create st User _ s1) as [[row|err] s2]; reflexivity.
Qed.

(** X4.  An answer of the login route, of POST /users or of one of the
    eleven other routes that create, update or delete is a 200, a 201, or
    one of the fixed failures: a status among 400, 401, 403, 404, 500 with
    one of the messages of the table.  A 500 carries the message Server
    error and nothing of the error the store threw. *)
Theorem failures_are_fixed_replies {S : Type} (st : store S) (rd : reads S)
    (s : S) (now : Z) (req : request) :
  (forall handler,
     In handler (login_post JWT_SECRET now :: mutating_handlers show) ->
     let r := sent (run st (handler req) s) in
     (status r = 200 \/ status r = 201 \/ is_failure r)
     /\ (status r = 500 -> r = server_error))
  /\ (exists r,
        answered (run_route st rd (users_post req) s) = of_response r
        /\ (status r = 201 \/ is_failure r)
        /\ (status r = 500 -> r = server_error)).
Proof.
  split.
  - intros handler Hin. cbn [In mutating_handlers] in Hin.
    repeat destruct Hin as [<-|Hin]; try contradiction;
      unfold_handler; every_path;
      (split;
       [ first [ left; reflexivity
               | right; left; reflexivity
               | right; right; eexists _, _; split; [|reflexivity];
                 unfold failures; repeat first [ by left | right ] ]
       | first [ reflexivity | intros H; discriminate H ] ]).
  - assert (Hfixed : forall c m,
      In (c, m) failures -> (c = 500 -> m = "Server error") ->
      exists r,
        of_response (reply c m) = of_response r
        /\ (status r = 201 \/ is_failure r)
        /\ (status r = 500 -> r = server_error)).
    { intros c m Hin H500. exists (reply c m). split; [reflexivity|].
      split; [right; by exists c, m|].
      cbn [status reply]. intros Hc. by rewrite Hc, (H500 Hc). }
    unfold users_post. destruct (_ || _).
    + apply Hfixed; [|intros H; discriminate H].
      unfold failures. repeat first [ by left | right ].
    + cbn [run_route].
      destruct (rd_findFirst rd User _ s) as [[[found|]|err] s1];
        cbn [run_route asked answered run sent].
      * apply Hfixed; [|intros H; discriminate H].
        unfold failures. repeat first [ by left | right ].
      * destruct (st_create st User _ s1) as [[row|err] s2];
          cbn [run after sent].
        -- eexists. split; [reflexivity|]. split; [by left|].
           intros H. discriminate H.
        -- apply Hfixed; [|done].
           unfold failures. repeat first [ by left | right ].
      * apply Hfixed; [|done].
        unfold failures. repeat first [ by left | right ].
Qed.

End AnyStore.

(** ** Creations *)

Lemma reviews_post_created {S : Type} (st : store S) (s : S) (req : request) :
  status (sent (run st (reviews_post req) s)) = 201 ->
  has_all_fields review_fields (body req) = true
  /\ created_after_two_lookups st s Review (body req)
       (review_data (body req)) (run st (reviews_post req) s).
Proof.
  destruct (has_all_fields review_fields (body req)) eqn:Hf.
  - unfold reviews_post. rewrite (review_fields_given _ Hf). cbn [run].
    destruct (st_findUnique st User _ _ s) as [[[u|]|?] s1] eqn:Hu;
      cbn [run after sent status reply]; try (intros H; discriminate H).
    destruct (st_findUnique st Property _ _ s1) as [[[p|]|?] s2] eqn:Hp;
      cbn [run after sent status reply]; try (intros H; discriminate H).
    destruct (st_create st Review _ s2) as [[row|?] s3] eqn:Hc;
      cbn [run after sent status reply]; try (intros H; discriminate H).
    intros _. split; [done|]. by exists u, s1, p, s2, row.
  - unfold reviews_post. rewrite (review_fields_missing _ Hf).
    intros H. discriminate H.
Qed.

Lemma bookings_post_created {S : Type} (st : store S) (s : S) (req : request) :
  status (sent (run st (bookings_post req) s)) = 201 ->
  has_all_fields booking_fields (body req) = true
  /\ created_after_two_lookups st s Booking (body req)
       (booking_data (body req)) (run st (bookings_post req) s).
Proof.
  destruct (has_all_fields booking_fields (body req)) eqn:Hf.
  - unfold bookings_post. rewrite (booking_fields_given _ Hf). cbn [run].
    destruct (st_findUnique st User _ _ s) as [[[u|]|?] s1] eqn:Hu;
      cbn [run after sent status reply]; try (intros H; discriminate H).
    destruct (st_findUnique st Property _ _ s1) as [[[p|]|?] s2] eqn:Hp;
      cbn [run after sent status reply]; try (intros H; discriminate H).
    destruct (st_create st Booking _ s2) as [[row|?] s3] eqn:Hc;
      cbn [run after sent status reply]; try (intros H; discriminate H).
    intros _. split; [done|]. by exists u, s1, p, s2, row.
  - unfold bookings_post. rewrite (booking_fields_missing _ Hf).
    intros H. discriminate H.
Qed.

Lemma properties_post_created {S : Type} (st : store S) (s : S)
    (req : request) :
  status (sent (run st (properties_post req) s)) = 201 ->
  has_all_fields property_fields (body req) = true
  /\ exists h s1 row,
       st_findUnique st Host "id" (get "hostId" (body req)) s
       = (Resolved (Some h), s1)
       /\ st_create st Property (property_data (body req)) s1
          = (Resolved row, final (run st (properties_post req) s))
       /\ sent (run st (properties_post req) s)
          = {| status := 201; json := row |}
       /\ calls (run st (properties_post req) s)
          = [host_lookup (body req);
             CCreate Property (property_data (body req))].
Proof.
  destruct (has_all_fields property_fields (body req)) eqn:Hf.
  - unfold properties_post. rewrite (property_fields_given _ Hf). cbn [run].
    destruct (st_findUnique st Host _ _ s) as [[[h|]|?] s1] eqn:Hh;
      cbn [run after sent status reply]; try (intros H; discriminate H).
    destruct (st_create st Property _ s1) as [[row|?] s2] eqn:Hc;
      cbn [run after sent status reply]; try (intros H; discriminate H).
    intros _. split; [done|]. by exists h, s1, row.
  - unfold properties_post. rewrite (property_fields_missing _ Hf).
    intros H. discriminate H.
Qed.

(** What a lookup by id that found a row says of the tables. *)
Lemma prisma_found (t : table) (v : jsval) (d d' : db) (row : obj) :
  prisma_findUnique t "id" v d = (Resolved (Some row), d') ->
  exists id, v = JStr id /\ rows t d !! id = Some row /\ d' = d.
Proof.
  unfold prisma_findUnique. destruct v; try (intros H; discriminate H).
  simpl. intros H. inversion H. by exists s.
Qed.

(** What a creation that went through says of the tables. *)
Lemma prisma_created (constraint : db -> call -> option obj)
    (uuid : db -> table -> string) (t : table) (data row : obj) (d d' : db) :
  prisma_create constraint uuid t data d = (Resolved row, d') ->
  exists id,
    rows t d !! id = None
    /\ row = <[ "id" := JStr id ]> data
    /\ d' = set_rows t (<[ id := row ]> (rows t d)) d.
Proof.
  unfold prisma_create.
  destruct (constraint d _); [intros H; discriminate H|].
  set (id := match data !! "id" with
             | Some (JStr i) => i
             | _ => uuid d t
             end).
  destruct (rows t d !! id) eqn:Hfree; [intros H; discriminate H|].
  intros H. inversion H. by exists id.
Qed.

(** X5.  A 201 of POST /reviews, /bookings or /properties means that the
    payload had every required field, that each lookup of the route (the
    user, then the property; the host) found a row, and that the one
    creation, made after them with the payload's fields, went through.
    Over the store model the rows referenced are in their tables, and the
    new row, the data under a fresh id, is the only change. *)
Theorem creation_follows_found_references (req : request) :
  let b := body req in
  (forall (S : Type) (st : store S) (s : S),
     (status (sent (run st (reviews_post req) s)) = 201 ->
        has_all_fields review_fields b = true
        /\ created_after_two_lookups st s Review b (review_data b)
             (run st (reviews_post req) s))
     /\ (status (sent (run st (bookings_post req) s)) = 201 ->
           has_all_fields booking_fields b = true
           /\ created_after_two_lookups st s Booking b (booking_data b)
                (run st (bookings_post req) s))
     /\ (status (sent (run st (properties_post req) s)) = 201 ->
           has_all_fields property_fields b = true
           /\ calls (run st (properties_post req) s)
              = [host_lookup b; CCreate Property (property_data b)]))
  /\ (forall (constraint : db -> call -> option obj)
             (uuid : db -> table -> string) (d : db),
        (forall t data handler,
           In (t, data, handler)
              [ (Review, review_data b, reviews_post);
                (Booking, booking_data b, bookings_post) ] ->
           let o := run (prisma constraint uuid) (handler req) d in
           status (sent o) = 201 ->
           exists uid pid id,
             get "userId" b = JStr uid /\ get "propertyId" b = JStr pid
             /\ is_Some (users d !! uid) /\ is_Some (properties d !! pid)
             /\ rows t d !! id = None
             /\ json (sent o) = <[ "id" := JStr id ]> data
             /\ final o = set_rows t (<[ id := json (sent o) ]> (rows t d)) d)
        /\ (let o := run (prisma constraint uuid) (properties_post req) d in
            status (sent o) = 201 ->
            exists hid id,
              get "hostId" b = JStr hid
              /\ is_Some (hosts d !! hid)
              /\ properties d !! id = None
              /\ json (sent o) = <[ "id" := JStr id ]> (property_data b)
              /\ final o
                 = set_rows Property (<[ id := json (sent o) ]> (properties d))
                     d)).
Proof.
  intros b. subst b. split.
  - intros S st s. repeat apply conj.
    + apply reviews_post_created.
    + apply bookings_post_created.
    + intros H. destruct (properties_post_created st s req H)
        as (Hf & h & s1 & row & _ & _ & _ & Hcalls). done.
  - intros constraint uuid d. split.
    + intros t data handler Hin o H201. subst o.
      assert (Hcreated : created_after_two_lookups (prisma constraint uuid) d
                 t (body req) data
                 (run (prisma constraint uuid) (handler req) d)).
      { cbn [In] in Hin.
        destruct Hin as [Heq|[Heq|[]]]; inversion Heq; subst.
        - by apply reviews_post_created.
        - by apply bookings_post_created. }
      destruct Hcreated as (u & s1 & p & s2 & row & Hu & Hp & Hc & Hsent & _).
      apply prisma_found in Hu as (uid & Huid & Hurow & ->).
      apply prisma_found in Hp as (pid & Hpid & Hprow & ->).
      apply prisma_created in Hc as (id & Hfree & Hrow & Hfinal).
      exists uid, pid, id. rewrite Hsent. cbn [json].
      split; [done|]. split; [done|]. split; [by exists u|].
      split; [by exists p|]. split; [done|]. split; [done|]. exact Hfinal.
    + intros o H201. subst o.
      destruct (properties_post_created (prisma constraint uuid) d req H201)
        as (_ & h & s1 & row & Hh & Hc & Hsent & _).
      apply prisma_found in Hh as (hid & Hhid & Hhrow & ->).
      apply prisma_created in Hc as (id & Hfree & Hrow & Hfinal).
      exists hid, id. rewrite Hsent. cbn [json].
      split; [done|]. split; [by exists h|]. split; [done|].
      split; [done|]. exact Hfinal.
Qed.

(** ** Deletions *)

Lemma rows_set_rows_other (t t' : table) (m : gmap string obj) (d : db) :
  t' <> t -> rows t' (set_rows t m d) = rows t' d.
Proof. by destruct t, t'. Qed.

(** X6.  Over the store model, when a delete route answers 200 the row
    of the path was in its table, the answer names it, and the store
    differs from before by that row alone: the other rows of the table
    and the other tables are as they were. *)
Theorem delete_removes_the_row_of_the_path (show : jsval -> string)
    (r : resource) (req : request)
    (constraint : db -> call -> option obj) (uuid : db -> table -> string)
    (d : db) :
  let o := run (prisma constraint uuid) (delete_of show r req) d in
  status (sent o) = 200 ->
  exists row,
    rows (table_of r) d !! params_id req = Some row
    /\ sent o = reply 200 (deleted_message show r row)
    /\ rows (table_of r) (final o)
       = delete (params_id req) (rows (table_of r) d)
    /\ forall t', t' <> table_of r -> rows t' (final o) = rows t' d.
Proof.
  intros o. subst o. rewrite delete_of_shape.
  destruct (owner_check r req); cbn [negb]; cbv iota;
    [|intros H; discriminate H].
  unfold delete_then_report. cbn [run st_delete prisma].
  unfold prisma_delete.
  destruct (rows (table_of r) d !! params_id req) as [row|] eqn:Hrow.
  - destruct (constraint d _) as [err|];
      cbn [run after sent final status reply].
    + destruct (is_P2025 err); intros H; discriminate H.
    + intros _. exists row. split; [done|]. split; [done|].
      split; [apply rows_set_rows|].
      intros t' Hne. by apply rows_set_rows_other.
  - cbn [run after sent final status reply]. rewrite known_error_P2025.
    intros H. discriminate H.
Qed.

(** ** The password of a user *)

(** X7.  Whatever the store answers, the body of an answer of PUT
    /users/:id and of POST /users has no password field: the row the
    store returns is sent without it, and the other answers are
    messages. *)
Theorem password_is_never_returned {S : Type} (st : store S) (rd : reads S)
    (s : S) (req : request) :
  json (sent (run st (users_put req) s)) !! "password" = None
  /\ exists o,
       content (answered (run_route st rd (users_post req) s)) = JObj o
       /\ o !! "password" = None.
Proof.
  split.
  - unfold_handler. every_path; try reflexivity.
    cbn [json shown]. apply lookup_delete_eq.
  - unfold users_post. destruct (_ || _).
    + eexists. split; reflexivity.
    + cbn [run_route].
      destruct (rd_findFirst rd User _ s) as [[[?|]|?] s1];
        cbn [run_route asked answered run sent of_response content];
        try (eexists; split; reflexivity).
      destruct (st_create st User _ s1) as [[row|?] s2];
        cbn [run after sent of_response content json status];
        [|eexists; split; reflexivity].
      eexists. split; [reflexivity|]. apply lookup_delete_eq.
Qed.

(** ** The user routes under the tokens of the login route *)

Section IssuedTokens.

Context {J : Jwt} {C : JwtContract J}.
Variable secret : string.
Hypothesis secret_set : secret <> "".
Variable show : jsval -> string.

(** X2.  With a token that the login route issued, to any user and at any
    later instant, PUT /users/:id and DELETE /users/:id never call the
    store, whatever the path id and the payload: the answer is 400, 401 or
    403 and no user row is read, changed or removed. *)
Theorem issued_token_never_reaches_a_user_row {S : Type} (st : store S)
    (s s' : S) (now : Z) (req : request) (stored : obj) (uid uname : string) :
  truthy (get "username" (body req)) = true ->
  truthy (get "password" (body req)) = true ->
  st_findUnique st User "username" (get "username" (body req)) s
  = (Resolved (Some stored), s') ->
  get "id" stored = JStr uid ->
  get "username" stored = JStr uname ->
  strict_eq (get "password" (body req)) (get "password" stored) = true ->
  exists token,
    sent (run st (login_post (Some secret) now req) s)
    = {| status := 200; json := {[ "token" := JStr token ]} |}
    /\ forall (later : Z) (r : request) (s2 : S),
        authorization r = Some ("Bearer " +:+ token) ->
        stopped s2 (run st (protected (Some secret) users_put later r) s2)
        /\ stopped s2
             (run st (protected (Some secret) (users_delete show) later r) s2).
Proof.
  intros Hu Hp Hfind Hid Hname Hpw.
  destruct (login_then_verify secret secret_set st s s' now req stored
              uid uname Hu Hp Hfind Hid Hname Hpw) as (token & Hrun & Hnext).
  exists token. split; [by rewrite Hrun|].
  intros later r s2 Hh.
  rewrite (Hnext users_put later r Hh), (Hnext (users_delete show) later r Hh).
  destruct (seconds later <? seconds now + expiresIn).
  - split.
    + destruct (no_user_field (body r)) eqn:Hf.
      * rewrite users_put_no_field by done.
        unfold stopped. cbn. tauto.
      * rewrite users_put_forbidden;
          [unfold stopped; cbn; tauto|done|apply login_claims_never_own].
    + rewrite users_delete_forbidden by apply login_claims_never_own.
      unfold stopped. cbn. tauto.
  - unfold stopped. cbn. tauto.
Qed.

End IssuedTokens.

(** ** The routes that read *)

Lemma selected_lookup (select row : obj) (k : string) (v : jsval) :
  selected select row !! k = Some v ->
  row !! k = Some v /\ is_true (get k select) = true.
Proof. unfold selected. by intros H%map_lookup_filter_Some. Qed.

Lemma selected_only_fields (fields : list string) (row : obj) :
  only_fields fields (selected (select_of fields) row).
Proof.
  intros k [v Hv]. apply selected_lookup in Hv as [_ Hsel].
  unfold get, select_of in Hsel.
  destruct (list_to_map _ !! k) as [w|] eqn:Hk; [|done].
  apply elem_of_list_to_map_2 in Hk.
  apply list_elem_of_fmap in Hk as (j & Hj & Hin). inversion Hj; subst.
  by apply list_elem_of_In.
Qed.

Section UsersRead.

Variable refused : table -> obj -> option obj.
Variable matches : table -> obj -> obj -> bool.

(** X8.  Over the store model, the users that GET /users answers, and the
    user that GET /users/:id answers, have no other field than id,
    username and email: the password of a user is never part of an
    answer, and each answered user is a stored one cut down to these
    fields. *)
Theorem user_reads_answer_three_fields (st : store db)
    (d : db) (req : get_request) :
  (forall l,
     content (answered (run_route st (prisma_reads refused matches)
                          (users_get req) d)) = JArr l ->
     Forall (fun v => exists o row,
                v = JObj o /\ o = selected user_select row
                /\ (exists id, users d !! id = Some row)
                /\ only_fields [ "id"; "username"; "email" ] o
                /\ o !! "password" = None) l)
  /\ (code (answered (run_route st (prisma_reads refused matches)
                        (users_get_id req) d)) = 200 ->
      exists o row,
        content (answered (run_route st (prisma_reads refused matches)
                             (users_get_id req) d)) = JObj o
        /\ users d !! path_id req = Some row
        /\ o = selected user_select row
        /\ only_fields [ "id"; "username"; "email" ] o
        /\ o !! "password" = None).
Proof.
  assert (Hkeys : forall row,
    only_fields [ "id"; "username"; "email" ] (selected user_select row)
    /\ selected user_select row !! "password" = None).
  { intros row. split; [apply selected_only_fields|].
    destruct (selected user_select row !! "password") as [v|] eqn:Hv; [|done].
    apply selected_lookup in Hv as [_ Hsel]. discriminate Hsel. }
  split.
  - intros l. unfold users_get. cbn [run_route rd_findMany prisma_reads].
    unfold prisma_findMany.
    replace (select_is_valid User user_select) with true by reflexivity.
    destruct (refused User _) as [err|];
      cbn [run_route asked answered content of_response rows_answer];
      [intros H; discriminate H|].
    intros H. inversion H as [Hl]. clear H Hl.
    apply Forall_fmap, Forall_fmap, Forall_forall. intros row Hin.
    apply (proj1 (filter_In _ _ _)) in Hin as [Hin _].
    apply (proj2 (list_elem_of_In _ _)) in Hin.
    apply list_elem_of_fmap in Hin as ([id row'] & -> & Hin).
    apply elem_of_map_to_list in Hin. cbn.
    exists (selected user_select row'), row'.
    destruct (Hkeys row') as [Hk Hp]. repeat split; try done. by exists id.
  - unfold users_get_id. cbn [run_route rd_findUnique prisma_reads].
    unfold prisma_findUnique_select.
    replace (select_is_valid User user_select) with true by reflexivity.
    rewrite lookup_singleton_eq.
    change (rows User d) with (users d).
    destruct (users d !! path_id req) as [row|] eqn:Hrow;
      cbn [fmap option_fmap option_map run_route asked answered run sent
           of_response code status content json reply];
      [|intros H; discriminate H].
    intros _. exists (selected user_select row), row.
    destruct (Hkeys row) as [Hk Hp]. done.
Qed.

End UsersRead.

Lemma split_not_nil (sep : ascii) (s : string) : split sep s <> [].
Proof.
  destruct s as [|c r]; simpl; [done|].
  destruct (Ascii.eqb c sep); [done|]. by destruct (split sep r).
Qed.

(** Joining what [split] gives, with the separator, gives the string
    back. *)
Lemma concat_split (sep : ascii) (s : string) :
  String.concat (String sep "") (split sep s) = s.
Proof.
  induction s as [|c r IH]; [done|]. simpl.
  pose proof (split_not_nil sep r) as Hne.
  destruct (Ascii.eqb_spec c sep) as [->|Hc].
  - destruct (split sep r) as [|h t] eqn:E; [done|].
    change (String.concat (String sep "") ("" :: h :: t))
      with (String sep (String.concat (String sep "") (h :: t))).
    by rewrite IH.
  - destruct (split sep r) as [|h t] eqn:E; [done|].
    destruct t as [|x xs].
    + simpl in *. by rewrite IH.
    + change (String.concat (String sep "") (String c h :: x :: xs))
        with (String c (String.concat (String sep "") (h :: x :: xs))).
      by rewrite IH.
Qed.

Section Reads.

Variable parseFloat : jsval -> jsval.

(** X10.  GET /properties with an amenities parameter.  When the
    parameter is a string, the names filtered on are its pieces between
    commas, as they stand: joined with commas they give the parameter
    back, so no name is trimmed or dropped (an empty piece is a name
    too).  When the parameter is there and truthy but no string (given
    twice, it is an array), building the filter throws: the answer is 500
    and the store is not called. *)
Theorem amenities_filter (req : get_request) :
  let amenities := get "amenities" (query req) in
  (forall s,
     amenities = JStr s -> s <> "" ->
     exists filters,
       property_filters parseFloat (query req) = Some filters
       /\ filters !! "amenities" = Some (some_name_in (split "," s))
       /\ String.concat "," (split "," s) = s)
  /\ (truthy amenities = true ->
      (forall s, amenities <> JStr s) ->
      forall (S : Type) (st : store S) (rd : reads S) (s : S),
        run_route st rd (properties_get parseFloat req) s
        = {| answered := of_response server_error; left_in := s;
             queries := [] |}).
Proof.
  intros amenities. split.
  - intros s Hs Hne. unfold property_filters. fold amenities. rewrite Hs.
    replace (truthy (JStr s)) with true
      by (simpl; by destruct (String.eqb_spec s "")).
    cbn [amenities_names]. eexists. split; [reflexivity|].
    split; [apply lookup_insert_eq|apply concat_split].
  - intros Ht Hnot S st rd s. unfold properties_get, property_filters.
    fold amenities. rewrite Ht.
    destruct amenities; try reflexivity. by destruct (Hnot s0).
Qed.

(** X11.  GET /users and GET /bookings make one store call, a
    [findMany], and so does GET /properties unless its amenities
    parameter is truthy and no string, when it makes none.  The [where]
    of that call filters on the parameters of the query that are there
    and truthy, on no other: username and email for the users (contained,
    whatever the case), userId for the bookings (equal), location
    (contained), pricePerNight (equal to its [parseFloat]) and amenities
    (some amenity named by a piece of the parameter between commas) for
    the properties.  An empty parameter filters nothing. *)
Theorem collection_routes_filter_on_truthy_parameters
    {S : Type} (st : store S) (rd : reads S) (s : S) (req : get_request) :
  let q := query req in
  let amenities := get "amenities" q in
  (exists w,
     queries (run_route st rd (users_get req) s)
     = [QFindMany User w user_select]
     /\ forall k,
         w !! k
         = if (bool_decide (k = "username") || bool_decide (k = "email"))
              && truthy (get k q)
           then Some (contains_insensitive (get k q)) else None)
  /\ (exists w,
        queries (run_route st rd (bookings_get req) s)
        = [QFindMany Booking w booking_select]
        /\ forall k,
            w !! k
            = if bool_decide (k = "userId") && truthy (get k q)
              then Some (get k q) else None)
  /\ (truthy amenities = true ->
      (forall a, amenities <> JStr a) ->
      queries (run_route st rd (properties_get parseFloat req) s) = [])
  /\ (truthy amenities = false \/ (exists a, amenities = JStr a) ->
      exists w,
        queries (run_route st rd (properties_get parseFloat req) s)
        = [QFindMany Property w property_select]
        /\ forall k,
            w !! k
            = if bool_decide (k = "location") then
                if truthy (get "location" q)
                then Some (contains_insensitive (get "location" q)) else None
              else if bool_decide (k = "pricePerNight") then
                if truthy (get "pricePerNight" q)
                then Some (JObj {[ "equals" :=
                                     parseFloat (get "pricePerNight" q) ]})
                else None
              else if bool_decide (k = "amenities") then
                match amenities with
                | JStr a =>
                    if truthy amenities
                    then Some (some_name_in (split "," a)) else None
                | _ => None
                end
              else None).
Proof.
  intros q amenities. subst q amenities. repeat apply conj.
  - eexists. split.
    + unfold users_get. cbn [run_route].
      destruct (rd_findMany rd User _ _ s) as [[l|err] s1]; reflexivity.
    + intros k.
      destruct (truthy (get "username" (query req))) eqn:Hu,
               (truthy (get "email" (query req))) eqn:He;
        repeat case_bool_decide; simplify_eq; cbn [orb andb];
        rewrite ?Hu, ?He; by simplify_map_eq.
  - eexists. split.
    + unfold bookings_get. cbn [run_route].
      destruct (rd_findMany rd Booking _ _ s) as [[l|err] s1]; reflexivity.
    + intros k.
      destruct (truthy (get "userId" (query req))) eqn:Hu;
        repeat case_bool_decide; simplify_eq; cbn [orb andb];
        rewrite ?Hu; by simplify_map_eq.
  - intros Ht Hnot. unfold properties_get, property_filters. rewrite Ht.
    destruct (get "amenities" (query req)) as [| | | |a| | |];
      try reflexivity.
    by destruct (Hnot a).
  - intros Hcase.
    destruct (property_filters parseFloat (query req)) as [w|] eqn:Hw.
    + exists w. split.
      { unfold properties_get. rewrite Hw. cbn [run_route].
        destruct (rd_findMany rd Property _ _ s) as [[l|err] s1];
          reflexivity. }
      intros k. revert Hw. unfold property_filters.
      destruct (truthy (get "amenities" (query req))) eqn:Ha;
        [destruct (get "amenities" (query req)) as [| | | |a| | |];
         cbn [amenities_names]; try (intros H; discriminate H)|];
        intros H; inversion H; subst; clear H;
        destruct (truthy (get "location" (query req))),
                 (truthy (get "pricePerNight" (query req)));
        repeat case_bool_decide; simplify_eq; rewrite ?Ha;
        try (by simplify_map_eq);
        destruct (get "amenities" (query req)); by simplify_map_eq.
    + exfalso. unfold property_filters in Hw.
      destruct Hcase as [Hf|[a Ha]].
      * rewrite Hf in Hw. discriminate Hw.
      * rewrite Ha in Hw. cbn [amenities_names] in Hw.
        destruct (truthy (JStr a)); discriminate Hw.
Qed.

End Reads.

Section SelectedFields.

Variable refused : table -> obj -> option obj.
Variable matches : table -> obj -> obj -> bool.
Variable parseFloat : jsval -> jsval.

(** X9.  The [select] of the six routes GET /reviews, /reviews/:id,
    /bookings, /bookings/:id, /properties and /properties/:id names the
    field createdAt, which the models Review, Booking and Property of
    [prisma/schema.prisma] do not have.  Over the store model, where the
    client refuses a [select] with a field the model lacks, each of these
    routes answers 500 Server error to every request, whatever the
    tables hold, and leaves them as they are. *)
Theorem reads_selecting_createdAt_answer_500 (st : store db) (d : db)
    (req : get_request) (handler : get_request -> route) :
  In handler [ reviews_get; reviews_get_id; bookings_get; bookings_get_id;
               properties_get parseFloat; properties_get_id ] ->
  answered (run_route st (prisma_reads refused matches) (handler req) d)
  = of_response (reply 500 "Server error")
  /\ left_in (run_route st (prisma_reads refused matches) (handler req) d) = d
  /\ Forall (fun t => is_field t "createdAt" = false)
            [ Review; Booking; Property ].
Proof.
  intros Hin. split; [|split].
  - cbn [In] in Hin.
    repeat destruct Hin as [<-|Hin]; try contradiction;
      try (unfold properties_get; destruct (property_filters _ _));
      reflexivity.
  - cbn [In] in Hin.
    repeat destruct Hin as [<-|Hin]; try contradiction;
      try (unfold properties_get; destruct (property_filters _ _));
      reflexivity.
  - repeat constructor.
Qed.

End SelectedFields.

(** ** Requests that fail *)

Lemma prisma_reads_quiet (refused : table -> obj -> option obj)
    (matches : table -> obj -> obj -> bool) :
  quiet (prisma_reads refused matches).
Proof.
  repeat apply conj.
  - intros t w sel d. cbn. unfold prisma_findMany.
    destruct (select_is_valid t sel); [|done]. by destruct (refused t w).
  - intros t w d. cbn. unfold prisma_findFirst. by destruct (refused t w).
  - intros t w sel d. cbn. unfold prisma_findUnique_select.
    destruct (select_is_valid t sel); [|done].
    by destruct (w !! "id") as [[]|].
Qed.

Lemma prisma_transactional (constraint : db -> call -> option obj)
    (uuid : db -> table -> string) :
  transactional (prisma constraint uuid).
Proof.
  repeat apply conj.
  - intros t f v d. apply prisma_findUnique_reads.
  - intros t data d err d'. cbn. unfold prisma_create.
    destruct (constraint d _); [by intros [= _ <-]|].
    destruct (rows t d !! _); [by intros [= _ <-]|]. intros H. discriminate H.
  - intros t i data d err d'. cbn. unfold prisma_update.
    destruct i; try (by intros [= _ <-]).
    destruct (rows t d !! _); [|by intros [= _ <-]].
    destruct (constraint d _); [by intros [= _ <-]|]. intros H. discriminate H.
  - intros t i d err d'. cbn. unfold prisma_delete.
    destruct i; try (by intros [= _ <-]).
    destruct (rows t d !! _); [|by intros [= _ <-]].
    destruct (constraint d _); [by intros [= _ <-]|]. intros H. discriminate H.
Qed.

Section Failing.

Context {J : Jwt}.
Variable JWT_SECRET : option string.
Variable show : jsval -> string.

(** X12.  Over a store whose reads change nothing and whose mutations
    change nothing when they throw, a request to the login route, to POST
    /users or to one of the eleven other routes that create, update or
    delete leaves the store as it was unless it is answered 200 or 201. *)
Theorem failed_requests_change_nothing {S : Type} (st : store S) (s : S)
    (now : Z) (req : request) :
  transactional st ->
  (forall handler,
     In handler (login_post JWT_SECRET now :: mutating_handlers show) ->
     status (sent (run st (handler req) s)) <> 200 ->
     status (sent (run st (handler req) s)) <> 201 ->
     final (run st (handler req) s) = s)
  /\ (forall rd : reads S,
        quiet rd ->
        code (answered (run_route st rd (users_post req) s)) <> 201 ->
        left_in (run_route st rd (users_post req) s) = s).
Proof.
  intros (Hread & Hcreate & Hupdate & Hdelete). split; cycle 1.
  { intros rd (_ & Hfirst & _). unfold users_post.
    destruct (_ || _); [reflexivity|]. cbn [run_route].
    pose proof (Hfirst User
      {[ "OR" := JArr [ JObj {[ "username" := get "username" (body req) ]};
                        JObj {[ "email" := get "email" (body req) ]} ] ]} s)
      as E.
    destruct (rd_findFirst rd User _ s) as [[[found|]|err] s1];
      cbn [snd] in E; subst s1;
      cbn [run_route asked answered left_in run sent final];
      try reflexivity.
    destruct (st_create st User _ s) as [[row|err] s2] eqn:Hc;
      cbn [run after sent final of_response code status].
    - intros H. by destruct H.
    - intros _. by apply Hcreate in Hc. }
  intros handler Hin.
  cbn [In mutating_handlers] in Hin.
  repeat destruct Hin as [<-|Hin]; try contradiction;
    unfold_handler;
    cbn [run after sent final calls status reply];
    repeat (match goal with
            | |- context [if negb ?b then _ else _] =>
                destruct b; cbn [negb]; cbv iota
            | |- context [if ?a || ?b then _ else _] =>
                destruct (a || b); cbv iota
            | |- context [if strict_neq ?a ?b then _ else _] =>
                destruct (strict_neq a b); cbv iota
            | |- context [match jwt_sign ?p ?k ?l ?n with _ => _ end] =>
                destruct (jwt_sign p k l n)
            | |- context [if is_P2025 ?e then _ else _] =>
                destruct (is_P2025 e)
            | |- context [st_findUnique ?st ?t ?f ?v ?s] =>
                let E := fresh "E" in
                pose proof (Hread t f v s) as E;
                destruct (st_findUnique st t f v s) as [[[?|]|?] ?];
                cbn [snd] in E; subst
            | |- context [st_create ?st ?t ?d ?s] =>
                let E := fresh "E" in
                destruct (st_create st t d s) as [[?|?] ?] eqn:E;
                [|apply Hcreate in E; subst]
            | |- context [st_update ?st ?t ?i ?d ?s] =>
                let E := fresh "E" in
                destruct (st_update st t i d s) as [[?|?] ?] eqn:E;
                [|apply Hupdate in E; subst]
            | |- context [st_delete ?st ?t ?i ?s] =>
                let E := fresh "E" in
                destruct (st_delete st t i s) as [[?|?] ?] eqn:E;
                [|apply Hdelete in E; subst]
            end;
            cbn [run after sent final calls status reply]);
    intros H200 H201; try reflexivity;
    first [ by destruct H200 | by destruct H201 ].
Qed.

End Failing.

(** ** The creation of a user *)

(** X13.  POST /users.  A payload without a truthy username, email,
    password or name is answered 400 and the store is not called.  A 201
    means that the search for a user with this username or this email
    found none and that the one creation, made after it, went through;
    when the search finds a user the answer is 400 and nothing is
    created. *)
Theorem user_creation_follows_the_search {S : Type} (st : store S)
    (rd : reads S) (s : S) (req : request) :
  let b := body req in
  let required := [ "username"; "email"; "password"; "name" ] in
  let search :=
    QFindFirst User
      {[ "OR" := JArr [ JObj {[ "username" := get "username" b ]};
                        JObj {[ "email" := get "email" b ]} ] ]} in
  let o := run_route st rd (users_post req) s in
  (has_all_fields required b = false ->
     o = {| answered :=
              of_response
                (reply 400 "Username, email, password, and name are required");
            left_in := s; queries := [] |})
  /\ (forall found s1,
        has_all_fields required b = true ->
        rd_findFirst rd User
          {[ "OR" := JArr [ JObj {[ "username" := get "username" b ]};
                            JObj {[ "email" := get "email" b ]} ] ]} s
        = (Resolved (Some found), s1) ->
        o = {| answered :=
                 of_response (reply 400 "Username or email already taken");
               left_in := s1; queries := [search] |})
  /\ (code (answered o) = 201 ->
      has_all_fields required b = true
      /\ exists s1 data row,
           rd_findFirst rd User
             {[ "OR" := JArr [ JObj {[ "username" := get "username" b ]};
                               JObj {[ "email" := get "email" b ]} ] ]} s
           = (Resolved None, s1)
           /\ st_create st User data s1 = (Resolved row, left_in o)
           /\ (forall k, In k [ "username"; "email"; "password"; "name";
                                "phoneNumber"; "profilePicture" ] ->
                         data !! k = Some (get k b))
           /\ queries o = [search; QCall (CCreate User data)]
           /\ answered o
              = of_response {| status := 201; json := delete "password" row |}).
Proof.
  intros b required search o. subst b required search o.
  assert (Hcond : falsy (get "username" (body req))
                  || falsy (get "email" (body req))
                  || falsy (get "password" (body req))
                  || falsy (get "name" (body req))
                  = negb (has_all_fields
                            [ "username"; "email"; "password"; "name" ]
                            (body req))).
  { unfold has_all_fields, falsy. simpl. by repeat destruct (truthy _). }
  unfold users_post. rewrite Hcond. repeat apply conj.
  - by intros ->.
  - intros found s1 -> Hfind. cbn [negb run_route]. by rewrite Hfind.
  - destruct (has_all_fields _ (body req)); cbn [negb];
      [|intros H; discriminate H].
    cbn [run_route].
    destruct (rd_findFirst rd User _ s) as [[[found|]|err] s1] eqn:Hfind;
      cbn [run_route asked answered run sent of_response code status reply];
      try (intros H; discriminate H).
    destruct (st_create st User _ s1) as [[row|err] s2] eqn:Hc;
      cbn [run after sent of_response code status reply];
      try (intros H; discriminate H).
    intros _. split; [done|]. eexists s1, _, row.
    split; [done|]. split; [exact Hc|]. split; [|done].
    intros k Hk. cbn [In] in Hk.
    repeat destruct Hk as [<-|Hk]; try contradiction; by simplify_map_eq.
Qed.

(** ** The seed *)

Section SeedProperties.

Variable parseFloat : jsval -> jsval.
Variable invalid_date : jsval -> bool.
Variable characters : string -> list string.
Context {S : Type}.
Variable st : store S.

Ltac seed_step :=
  cbn [run_script then_event events ended fatal guarded guard_of].



















Lemma seed_users_safe (l : list jsval) (k : script) :
  safe st k -> safe st (seed_users l k).
Proof.
  intros Hk. induction l as [|user l IH]; [done|]. cbn [seed_users].
  destruct (truthy user); [|done]. intros s prev. seed_step.
  destruct (st_create st User _ s) as [[row|err] s1]; seed_step;
    (split; [done|]); [apply IH|].
  destruct (is_P2002 err); [apply IH|]. by seed_step.
Qed.

Lemma seed_hosts_safe (l : list jsval) (k : script) :
  safe st k -> safe st (seed_hosts l k).
Proof.
  intros Hk. induction l as [|host l IH]; [done|]. cbn [seed_hosts].
  destruct (truthy host); [|done]. intros s prev. seed_step.
  destruct (st_create st Host _ s) as [[row|err] s1]; seed_step;
    (split; [done|]); [apply IH|done].
Qed.

Lemma seed_properties_safe (l : list jsval) (k : script) :
  safe st k -> safe st (seed_properties parseFloat l k).
Proof.
  intros Hk. induction l as [|property l IH]; [done|].
  cbn [seed_properties].
  destruct (truthy property); [|done]. intros s prev. seed_step.
  destruct (st_findUnique st Host _ _ s) as [[[h|]|err] s1]; seed_step;
    (split; [done|]); try apply IH.
  destruct (st_create st Property _ s1) as [[row|err] s2]; seed_step;
    (split; [by exists (prop "hostId" property), h|apply IH]).
Qed.

Lemma seed_bookings_safe (l : list jsval) (k : script) :
  safe st k -> safe st (seed_bookings invalid_date l k).
Proof.
  intros Hk. induction l as [|booking l IH]; [done|]. cbn [seed_bookings].
  destruct (truthy booking); [|done].
  destruct (_ || _); [done|]. intros s prev. seed_step.
  destruct (st_create st Booking _ s) as [[row|err] s1]; seed_step;
    (split; [done|]); [apply IH|done].
Qed.

Lemma seed_reviews_safe (l : list jsval) (k : script) :
  safe st k -> safe st (seed_reviews l k).
Proof.
  intros Hk. induction l as [|review l IH]; [done|]. cbn [seed_reviews].
  destruct (truthy review); [|done]. intros s prev. seed_step.
  destruct (st_findUnique st Property _ _ s) as [[[p|]|err] s1]; seed_step;
    (split; [done|]); [|apply IH|done].
  destruct (st_create st Review _ s1) as [[row|err] s2]; seed_step;
    (split; [by exists (prop "propertyId" review), p|]); [apply IH|done].
Qed.

Lemma stage_safe (doc : jsval) (name : string)
    (loop : list jsval -> script -> script) (k : script) :
  (forall l, safe st (loop l k)) ->
  safe st (stage characters doc name loop k).
Proof.
  intros Hloop. unfold stage.
  destruct (getComponentsSchema doc name) as [examples|]; [|done].
  destruct (iterate characters examples) as [l|]; [apply Hloop|done].
Qed.

(** X15.  In a run of the seed, the creation of a property comes right
    after a lookup of the host it connects to, and the creation of a
    review right after a lookup of the property it connects to, and that
    lookup found a row: the seed creates no property for a host, and no
    review for a property, that the store does not have. *)
Theorem seed_creates_after_found_lookups (doc : jsval) (s : S) :
  guarded None
    (events (run_script st (main parseFloat invalid_date characters doc) s)).
Proof.
  revert s. generalize (@None event).
  intros prev s. revert s prev.
  change (safe st (main parseFloat invalid_date characters doc)).
  unfold main.
  apply stage_safe. intros l1. apply seed_users_safe.
  apply stage_safe. intros l2. apply seed_hosts_safe.
  apply stage_safe. intros l3. apply seed_properties_safe.
  apply stage_safe. intros l4. apply seed_bookings_safe.
  apply stage_safe. intros l5. apply seed_reviews_safe.
  done.
Qed.

End SeedProperties.

(** * The further properties on the sample data *)

(** jdoe's token after the word Token, with more text after it. *)
Lemma token_is_second_segment_witness :
  verifyToken (J := plain_jwt) (Some sample_secret) 1000
    (incoming (Some ("Token " +:+ jdoe_token +:+ " and more")) "42" new_email)
  = Next (set_user
            (incoming (Some ("Token " +:+ jdoe_token +:+ " and more")) "42"
               new_email)
            (login_claims "42" "jdoe" 0)).
Proof.
  rewrite (token_is_second_segment (J := plain_jwt) (Some sample_secret) 1000
             (incoming (Some ("Token " +:+ jdoe_token +:+ " and more")) "42"
                new_email)
             "Token" jdoe_token " and more" eq_refl eq_refl eq_refl
             (or_intror (ex_intro _ "and more" eq_refl))).
  reflexivity.
Defined.

(** jdoe logs in at instant 0. *)
Lemma issued_token_never_reaches_a_user_row_witness :
  exists token,
    sent (run sample_store
            (login_post (J := plain_jwt) (Some sample_secret) 0
               (login_request "jdoe" "secret")) sample_db)
    = {| status := 200; json := {[ "token" := JStr token ]} |}
    /\ forall (later : Z) (r : request) (s2 : db),
        authorization r = Some ("Bearer " +:+ token) ->
        stopped s2
          (run sample_store
             (protected (J := plain_jwt) (Some sample_secret) users_put later r)
             s2)
        /\ stopped s2
             (run sample_store
                (protected (J := plain_jwt) (Some sample_secret)
                   (users_delete sample_show) later r) s2).
Proof.
  exact (issued_token_never_reaches_a_user_row (C := plain_jwt_contract)
           sample_secret sample_secret_set sample_show sample_store
           sample_db sample_db 0 (login_request "jdoe" "secret") jdoe
           "42" "jdoe" eq_refl eq_refl eq_refl eq_refl eq_refl eq_refl).
Defined.

(** A review by jdoe for the property p1: two lookups, then the
    creation. *)
Lemma mutation_is_the_last_call_witness :
  reads_before_last
    (calls (run sample_store
              (reviews_post (incoming None "" (review_of "42" "p1")))
              sample_db)) = true.
Proof.
  apply (proj1 (mutation_is_the_last_call (J := plain_jwt)
                  (Some sample_secret) sample_show sample_store sample_reads
                  sample_db 0 (incoming None "" (review_of "42" "p1")))
           reviews_post).
  right. right. right. left. reflexivity.
Defined.

(** An update of a review that is not there. *)
Lemma failures_are_fixed_replies_witness :
  (status (sent (run sample_store
                   (reviews_put (incoming None "zz" new_rating)) sample_db))
   = 200
   \/ status (sent (run sample_store
                      (reviews_put (incoming None "zz" new_rating)) sample_db))
      = 201
   \/ is_failure (sent (run sample_store
                          (reviews_put (incoming None "zz" new_rating))
                          sample_db)))
  /\ (status (sent (run sample_store
                      (reviews_put (incoming None "zz" new_rating)) sample_db))
      = 500 ->
      sent (run sample_store
              (reviews_put (incoming None "zz" new_rating)) sample_db)
      = server_error).
Proof.
  apply (proj1 (failures_are_fixed_replies (J := plain_jwt)
                  (Some sample_secret) sample_show sample_store sample_reads
                  sample_db 0 (incoming None "zz" new_rating))
           reviews_put).
  do 4 right. left. reflexivity.
Defined.

(** A review by jdoe for the property p1, and a property of the host
    h1. *)
Lemma creation_follows_found_references_witness :
  (exists uid pid id,
     get "userId" (review_of "42" "p1") = JStr uid
     /\ get "propertyId" (review_of "42" "p1") = JStr pid
     /\ is_Some (users sample_db !! uid)
     /\ is_Some (properties sample_db !! pid)
     /\ rows Review sample_db !! id = None
     /\ json (sent (run sample_store
                      (reviews_post (incoming None "" (review_of "42" "p1")))
                      sample_db))
        = <[ "id" := JStr id ]> (review_data (review_of "42" "p1"))
     /\ final (run sample_store
                 (reviews_post (incoming None "" (review_of "42" "p1")))
                 sample_db)
        = set_rows Review
            (<[ id := json (sent (run sample_store
                                    (reviews_post
                                       (incoming None ""
                                          (review_of "42" "p1")))
                                    sample_db)) ]> (rows Review sample_db))
            sample_db)
  /\ calls (run sample_store
              (properties_post (incoming None "" (property_of "h1")))
              sample_db)
     = [host_lookup (property_of "h1");
        CCreate Property (property_data (property_of "h1"))].
Proof.
  destruct (creation_follows_found_references
              (incoming None "" (review_of "42" "p1"))) as [_ Hmodel].
  destruct (creation_follows_found_references
              (incoming None "" (property_of "h1"))) as [Hany _].
  split.
  - destruct (Hmodel no_constraint sample_uuid sample_db) as [Hrb _].
    exact (Hrb Review (review_data (review_of "42" "p1")) reviews_post
             (or_introl eq_refl) eq_refl).
  - destruct (Hany db sample_store sample_db) as (_ & _ & Hp).
    exact (proj2 (Hp eq_refl)).
Defined.

(** DELETE /reviews/r1. *)
Lemma delete_removes_the_row_of_the_path_witness :
  exists row,
    rows Review sample_db !! "r1" = Some row
    /\ sent (run sample_store
               (reviews_delete sample_show (incoming None "r1" ∅)) sample_db)
       = reply 200 (deleted_message sample_show Reviews row)
    /\ rows Review
         (final (run sample_store
                   (reviews_delete sample_show (incoming None "r1" ∅))
                   sample_db))
       = delete "r1" (rows Review sample_db)
    /\ forall t',
        t' <> Review ->
        rows t'
          (final (run sample_store
                    (reviews_delete sample_show (incoming None "r1" ∅))
                    sample_db))
        = rows t' sample_db.
Proof.
  exact (delete_removes_the_row_of_the_path sample_show Reviews
           (incoming None "r1" ∅) no_constraint sample_uuid sample_db
           eq_refl).
Defined.

(** GET /users/42. *)
Lemma user_reads_answer_three_fields_witness :
  exists o row,
    content (answered (run_route sample_store sample_reads
                         (users_get_id (get_of ∅ "42")) sample_db)) = JObj o
    /\ users sample_db !! "42" = Some row
    /\ o = selected user_select row
    /\ only_fields [ "id"; "username"; "email" ] o
    /\ o !! "password" = None.
Proof.
  exact (proj2 (user_reads_answer_three_fields (fun _ _ => None)
                  (fun _ _ _ => true) sample_store sample_db (get_of ∅ "42"))
           ltac:(reflexivity)).
Defined.

(** GET /reviews. *)
Lemma reads_selecting_createdAt_answer_500_witness :
  answered (run_route sample_store sample_reads (reviews_get (get_of ∅ ""))
              sample_db)
  = of_response (reply 500 "Server error")
  /\ left_in (run_route sample_store sample_reads (reviews_get (get_of ∅ ""))
                sample_db) = sample_db
  /\ Forall (fun t => is_field t "createdAt" = false)
            [ Review; Booking; Property ].
Proof.
  exact (reads_selecting_createdAt_answer_500 (fun _ _ => None)
           (fun _ _ _ => true) sample_parseFloat sample_store sample_db
           (get_of ∅ "") reviews_get (or_introl eq_refl)).
Defined.

(** GET /properties?amenities=Wifi, Pool and with the parameter given
    twice. *)
Lemma amenities_filter_witness :
  (exists filters,
     property_filters sample_parseFloat {[ "amenities" := JStr "Wifi, Pool" ]}
     = Some filters
     /\ filters !! "amenities" = Some (some_name_in [ "Wifi"; " Pool" ])
     /\ String.concat "," [ "Wifi"; " Pool" ] = "Wifi, Pool")
  /\ run_route sample_store sample_reads
       (properties_get sample_parseFloat
          (get_of {[ "amenities" := JArr [ JStr "Wifi"; JStr "Pool" ] ]} ""))
       sample_db
     = {| answered := of_response server_error; left_in := sample_db;
          queries := [] |}.
Proof.
  destruct (amenities_filter sample_parseFloat
              (get_of {[ "amenities" := JStr "Wifi, Pool" ]} ""))
    as [Hstr _].
  destruct (amenities_filter sample_parseFloat
              (get_of {[ "amenities" := JArr [ JStr "Wifi"; JStr "Pool" ] ]}
                 "")) as [_ Harr].
  split.
  - exact (Hstr "Wifi, Pool" eq_refl ltac:(discriminate)).
  - exact (Harr eq_refl ltac:(intros s H; discriminate H) db sample_store
             sample_reads sample_db).
Defined.

(** A review for a user that is not there, and a new user under a
    username that is taken. *)
Lemma failed_requests_change_nothing_witness :
  final (run sample_store
           (reviews_post (incoming None "" (review_of "ghost" "p1")))
           sample_db) = sample_db
  /\ left_in (run_route sample_store sample_reads
                (users_post (incoming None "" new_user)) sample_db)
     = sample_db.
Proof.
  split.
  - apply (proj1 (failed_requests_change_nothing (J := plain_jwt)
                    (Some sample_secret) sample_show sample_store sample_db 0
                    (incoming None "" (review_of "ghost" "p1"))
                    (prisma_transactional no_constraint sample_uuid))
             reviews_post).
    + right. right. right. left. reflexivity.
    + intros H. discriminate H.
    + intros H. discriminate H.
  - apply (proj2 (failed_requests_change_nothing (J := plain_jwt)
                    (Some sample_secret) sample_show sample_store sample_db 0
                    (incoming None "" new_user)
                    (prisma_transactional no_constraint sample_uuid))
             sample_reads).
    + apply prisma_reads_quiet.
    + intros H. discriminate H.
Defined.

(** POST /users without a name, with a new user when no stored user
    matches, and when one does. *)
Lemma user_creation_follows_the_search_witness :
  run_route sample_store sample_reads_none
    (users_post (incoming None "" new_user_without_name)) sample_db
  = {| answered :=
         of_response
           (reply 400 "Username, email, password, and name are required");
       left_in := sample_db; queries := [] |}
  /\ code (answered (run_route sample_store sample_reads
                       (users_post (incoming None "" new_user)) sample_db))
     = 400
  /\ exists s1 data row,
       st_create sample_store User data s1
       = (Resolved row,
          left_in (run_route sample_store sample_reads_none
                     (users_post (incoming None "" new_user)) sample_db))
       /\ answered (run_route sample_store sample_reads_none
                      (users_post (incoming None "" new_user)) sample_db)
          = of_response {| status := 201; json := delete "password" row |}.
Proof.
  destruct (user_creation_follows_the_search sample_store sample_reads_none
              sample_db (incoming None "" new_user_without_name))
    as (Hmissing & _).
  destruct (user_creation_follows_the_search sample_store sample_reads
              sample_db (incoming None "" new_user)) as (_ & Htaken & _).
  destruct (user_creation_follows_the_search sample_store sample_reads_none
              sample_db (incoming None "" new_user)) as (_ & _ & Hcreated).
  split; [exact (Hmissing eq_refl)|]. split.
  - exact (f_equal (fun r => code (answered r))
             (Htaken asmith sample_db eq_refl eq_refl)).
  - destruct (Hcreated eq_refl) as (_ & s1 & data & row & _ & Hc & _ & _ & Ha).
    exists s1, data, row. split; [exact Hc|exact Ha].
Defined.
